(** * py3-wiiboard: a shallow embedding of the balance-board driver

    The development follows [py3-wiiboard.py]: the module constants, the
    [Wiiboard] object with its sockets and callbacks, the receive loop with
    its packet dispatch, and the two subclasses [WiiboardSampling] and
    [WiiboardPrint].  Python exceptions are results of an error type, the
    object's attributes are a record threaded through a state-and-exception
    monad (an attribute assigned before an exception stays assigned), and
    Python floats are IEEE binary64 numbers, computed with the executable
    specification of the Standard Library ([SpecFloat]). *)

From Stdlib Require Import ZArith Strings.Byte.
From Stdlib Require Import Floats.SpecFloat.
From stdpp Require Import base tactics option list.

#[local] Open Scope Z_scope.

(** ** Python floats *)

Definition float : Type := spec_float.

Module PyFloat.

Definition prec : Z := 53.
Definition emax : Z := 1024.

(** The binary64 float nearest to an integer (ties to even); an infinity
    when the integer is out of range. *)
Definition of_Z (z : Z) : float := binary_normalize prec emax z 0 false.

Definition mul : float -> float -> float := SFmul prec emax.
Definition add : float -> float -> float := SFadd prec emax.
Definition div : float -> float -> float := SFdiv prec emax.
Definition leb : float -> float -> bool := SFleb.
Definition ltb : float -> float -> bool := SFltb.

Definition zero : float := S754_zero false.
Definition one : float := Eval vm_compute in of_Z 1.
Definition seventeen : float := Eval vm_compute in of_Z 17.
Definition half : float := Eval vm_compute in div (of_Z 1) (of_Z 2).

Definition is_zero (x : float) : bool :=
  match x with S754_zero _ => true | _ => false end.

Definition is_finite (x : float) : bool :=
  match x with S754_zero _ | S754_finite _ _ _ => true | _ => false end.

End PyFloat.

(** ** Exceptions and the two monads *)

Inductive exn : Set :=
| IndexError
| UnboundLocalError
| ZeroDivisionError
| OverflowError
| AttributeError
| ValueError
| OSError.

Inductive result (A : Type) : Type :=
| Ok (a : A)
| Raise (e : exn).
Arguments Ok {A} a.
Arguments Raise {A} e.

#[export] Instance result_ret : MRet result := fun _ a => Ok a.
#[export] Instance result_bind : MBind result := fun _ _ f r =>
  match r with Ok a => f a | Raise e => Raise e end.

(** ** Module constants *)

(** The sampling parameters of the module.  The driver below takes
    [N_SAMPLES], [N_LOOP] and [T_SLEEP] as section variables, so that its
    theorems hold for every setting; [Settings] holds the values of the
    source. *)
Module Settings.
Definition Minutes : Z := 20.
Definition Seconds : Z := 0.
Definition N_SAMPLES : Z := 100 * (Seconds + 60 * Minutes).
Definition SESSION_TIME : Z := Seconds + 60 * Minutes.
Definition N_LOOP : Z := 0.
Definition T_SLEEP : Z := 2.
End Settings.

Definition BATTERY_MAX : float := Eval vm_compute in PyFloat.of_Z 200.
Definition TOP_RIGHT : nat := 0.
Definition BOTTOM_RIGHT : nat := 1.
Definition TOP_LEFT : nat := 2.
Definition BOTTOM_LEFT : nat := 3.

Definition CONTINUOUS_REPORTING : list byte := [x04].
Definition COMMAND_REPORTING : list byte := [x12].
Definition COMMAND_LIGHT : list byte := [x11].
Definition COMMAND_READ_REGISTER : list byte := [x17].
Definition COMMAND_REGISTER : list byte := [x16].
Definition COMMAND_REQUEST_STATUS : list byte := [x15].
Definition INPUT_STATUS : list byte := [x20].
Definition INPUT_READ_DATA : list byte := [x21].
Definition EXTENSION_8BYTES : list byte := [x32].
Definition BUTTON_DOWN_MASK : Z := 8.
Definition LED1_MASK : Z := 16.

(** The sentinel [1e4] of an unset calibration cell.  The cells of the table
    are this float or 16-bit integers; all of them, and their differences,
    are integers that binary64 holds exactly, so a cell is kept as its
    integer value. *)
Definition SENTINEL : Z := 10000.

(** ** Bytes *)

Definition byte_val (b : byte) : Z := Z.of_N (Byte.to_N b).

(** [ord(c)] of a one-byte constant. *)
Definition ord (c : list byte) : Z :=
  match c with [b] => byte_val b | _ => 0 end.

(** [int.from_bytes(b, "big")]. *)
Definition from_bytes_big (b : list byte) : Z :=
  fold_left (fun acc x => acc * 256 + byte_val x) b 0.

(** [b2i] on a bytes object and on an integer (one indexed byte). *)
Definition b2i (b : list byte) : Z := from_bytes_big b.
Definition b2i_int (b : Z) : Z := b.

(** [data[i:j]] for [0 <= i], [0 <= j]: the slice is clamped to the data. *)
Definition slice {A} (i j : nat) (data : list A) : list A :=
  take (j - i)%nat (drop i data).

(** [l[i]] for [0 <= i]. *)
Definition getitem {A} (l : list A) (i : nat) : result A :=
  match l !! i with
  | Some x => Ok x
  | None => Raise IndexError
  end.

(** ** Integer and float arithmetic of [calc_mass] *)

(** [float(n)] and the conversion of an integer operand of a float
    operation: out of the binary64 range Python raises. *)
Definition float_of_int (n : Z) : result float :=
  let x := PyFloat.of_Z n in
  if PyFloat.is_finite x then Ok x else Raise OverflowError.

(** [n / d] for an integer [n] and a float [d]. *)
Definition truediv (n : Z) (d : float) : result float :=
  x ← float_of_int n;
  if PyFloat.is_zero d then Raise ZeroDivisionError
  else Ok (PyFloat.div x d).

(** [self.calibration[row][pos]]. *)
Definition cell (calibration : list (list Z)) (row pos : nat) : result Z :=
  r ← getitem calibration row;
  getitem r pos.

(** The two interpolations that [calc_mass] returns: between the 0 kg and
    the 17 kg reference, [17 * ((raw - c0) / float(c1 - c0))], and above the
    17 kg reference, [17 + 17 * ((raw - c1) / float(c2 - c1))]. *)
Definition below_17kg (c0 c1 raw : Z) : result float :=
  d ← float_of_int (c1 - c0);
  q ← truediv (raw - c0) d;
  Ok (PyFloat.mul PyFloat.seventeen q).

Definition above_17kg (c1 c2 raw : Z) : result float :=
  d ← float_of_int (c2 - c1);
  q ← truediv (raw - c1) d;
  Ok (PyFloat.add PyFloat.seventeen (PyFloat.mul PyFloat.seventeen q)).

(** [calc_mass]: the weight in kilograms of the raw reading of corner
    [pos]; it reads the calibration table only. *)
Definition calc_mass (calibration : list (list Z)) (raw : Z) (pos : nat)
  : result float :=
  c0 ← cell calibration 0 pos;
  if raw <? c0 then Ok PyFloat.zero
  else
    c1 ← cell calibration 1 pos;
    if raw <? c1 then below_17kg c0 c1 raw
    else
      c2 ← cell calibration 2 pos;
      above_17kg c1 c2 raw.

(** ** The driver object *)

(** [get_mass]'s dictionary. *)
Record mass_dict : Type := MassDict {
  top_right : float;
  bottom_right : float;
  top_left : float;
  bottom_left : float
}.

(** A Bluetooth socket: created, connected by [connect], closed by
    [close]; sending and receiving need a connected socket. *)
Inductive socket : Set := Unconnected | Connected | Closed.

Inductive message : Set :=
| LogConnecting | LogWaitCalibration | LogStatus | LogCalibrated
| PrintMeasurement | LogPressed | LogReleased | PrintSession.

(** What the driver does to the world, in the order it does it. *)
Inductive event : Type :=
| Sent (frame : list byte)           (* controlsocket.send *)
| Logged (m : message)               (* logger and print *)
| WriteRow (row : list float)        (* csv_writer.writerow *)
| Slept (seconds : Z)                (* time.sleep *)
| ClosedCsv | ClosedReceive | ClosedControl.

(** The attributes of a [WiiboardPrint] object, with what it owns in the
    world.  [maxlen] is the bound of the deque [samples]; [loop_length] is
    the local variable [length] of [loop], which keeps its value from one
    iteration to the next; [csv_writer] tells whether a writer is
    installed (the constructor leaves it at [None]); [csv_file] is the
    file of the main program, open or closed. *)
Record Wiiboard : Type := MkWiiboard {
  csv_writer : bool;
  csv_file : bool;
  controlsocket : socket;
  receivesocket : socket;
  calibration : list (list Z);
  calibration_requested : bool;
  light_state : bool;
  button_down : bool;
  battery : float;
  running : bool;
  samples : list mass_dict;
  maxlen : nat;
  nloop : Z;
  loop_length : option Z;
  trace : list event
}.

Definition set_csv_writer (v : bool) (s : Wiiboard) : Wiiboard :=
  MkWiiboard v (csv_file s) (controlsocket s) (receivesocket s)
    (calibration s) (calibration_requested s) (light_state s) (button_down s)
    (battery s) (running s) (samples s) (maxlen s) (nloop s) (loop_length s) (trace s).
Definition set_csv_file (v : bool) (s : Wiiboard) : Wiiboard :=
  MkWiiboard (csv_writer s) v (controlsocket s) (receivesocket s)
    (calibration s) (calibration_requested s) (light_state s) (button_down s)
    (battery s) (running s) (samples s) (maxlen s) (nloop s) (loop_length s) (trace s).
Definition set_controlsocket (v : socket) (s : Wiiboard) : Wiiboard :=
  MkWiiboard (csv_writer s) (csv_file s) v (receivesocket s)
    (calibration s) (calibration_requested s) (light_state s) (button_down s)
    (battery s) (running s) (samples s) (maxlen s) (nloop s) (loop_length s) (trace s).
Definition set_receivesocket (v : socket) (s : Wiiboard) : Wiiboard :=
  MkWiiboard (csv_writer s) (csv_file s) (controlsocket s) v
    (calibration s) (calibration_requested s) (light_state s) (button_down s)
    (battery s) (running s) (samples s) (maxlen s) (nloop s) (loop_length s) (trace s).
Definition set_calibration (v : list (list Z)) (s : Wiiboard) : Wiiboard :=
  MkWiiboard (csv_writer s) (csv_file s) (controlsocket s) (receivesocket s)
    v (calibration_requested s) (light_state s) (button_down s)
    (battery s) (running s) (samples s) (maxlen s) (nloop s) (loop_length s) (trace s).
Definition set_calibration_requested (v : bool) (s : Wiiboard) : Wiiboard :=
  MkWiiboard (csv_writer s) (csv_file s) (controlsocket s) (receivesocket s)
    (calibration s) v (light_state s) (button_down s)
    (battery s) (running s) (samples s) (maxlen s) (nloop s) (loop_length s) (trace s).
Definition set_light_state (v : bool) (s : Wiiboard) : Wiiboard :=
  MkWiiboard (csv_writer s) (csv_file s) (controlsocket s) (receivesocket s)
    (calibration s) (calibration_requested s) v (button_down s)
    (battery s) (running s) (samples s) (maxlen s) (nloop s) (loop_length s) (trace s).
Definition set_button_down (v : bool) (s : Wiiboard) : Wiiboard :=
  MkWiiboard (csv_writer s) (csv_file s) (controlsocket s) (receivesocket s)
    (calibration s) (calibration_requested s) (light_state s) v
    (battery s) (running s) (samples s) (maxlen s) (nloop s) (loop_length s) (trace s).
Definition set_battery (v : float) (s : Wiiboard) : Wiiboard :=
  MkWiiboard (csv_writer s) (csv_file s) (controlsocket s) (receivesocket s)
    (calibration s) (calibration_requested s) (light_state s) (button_down s)
    v (running s) (samples s) (maxlen s) (nloop s) (loop_length s) (trace s).
Definition set_running (v : bool) (s : Wiiboard) : Wiiboard :=
  MkWiiboard (csv_writer s) (csv_file s) (controlsocket s) (receivesocket s)
    (calibration s) (calibration_requested s) (light_state s) (button_down s)
    (battery s) v (samples s) (maxlen s) (nloop s) (loop_length s) (trace s).
Definition set_samples (v : list mass_dict) (s : Wiiboard) : Wiiboard :=
  MkWiiboard (csv_writer s) (csv_file s) (controlsocket s) (receivesocket s)
    (calibration s) (calibration_requested s) (light_state s) (button_down s)
    (battery s) (running s) v (maxlen s) (nloop s) (loop_length s) (trace s).
Definition set_nloop (v : Z) (s : Wiiboard) : Wiiboard :=
  MkWiiboard (csv_writer s) (csv_file s) (controlsocket s) (receivesocket s)
    (calibration s) (calibration_requested s) (light_state s) (button_down s)
    (battery s) (running s) (samples s) (maxlen s) v (loop_length s) (trace s).
Definition set_loop_length (v : option Z) (s : Wiiboard) : Wiiboard :=
  MkWiiboard (csv_writer s) (csv_file s) (controlsocket s) (receivesocket s)
    (calibration s) (calibration_requested s) (light_state s) (button_down s)
    (battery s) (running s) (samples s) (maxlen s) (nloop s) v (trace s).
Definition emit (e : event) (s : Wiiboard) : Wiiboard :=
  MkWiiboard (csv_writer s) (csv_file s) (controlsocket s) (receivesocket s)
    (calibration s) (calibration_requested s) (light_state s) (button_down s)
    (battery s) (running s) (samples s) (maxlen s) (nloop s) (loop_length s)
    (trace s ++ [e]).

(** A method of the object: it returns or raises, and leaves a state. *)
Definition M (A : Type) : Type := Wiiboard -> result A * Wiiboard.

#[export] Instance M_ret : MRet M := fun _ a s => (Ok a, s).
#[export] Instance M_bind : MBind M := fun _ _ f m s =>
  match m s with
  | (Ok a, s') => f a s'
  | (Raise e, s') => (Raise e, s')
  end.

Definition raise {A} (e : exn) : M A := fun s => (Raise e, s).
Definition lift {A} (r : result A) : M A := fun s => (r, s).
Definition read {A} (f : Wiiboard -> A) : M A := fun s => (Ok (f s), s).
Definition update (f : Wiiboard -> Wiiboard) : M unit := fun s => (Ok tt, f s).
Definition pass : M unit := mret tt.
Definition log (m : message) : M unit := update (emit (Logged m)).

(** ** Sockets *)

Definition socket_connect (sock : socket) : result socket :=
  match sock with
  | Unconnected => Ok Connected
  | _ => Raise OSError
  end.

(** [self.controlsocket.send(frame)]. *)
Definition controlsocket_send (frame : list byte) : M unit := fun s =>
  match controlsocket s with
  | Connected => (Ok tt, emit (Sent frame) s)
  | _ => (Raise OSError, s)
  end.

(** ** Methods of [Wiiboard] *)

Definition send (data : list (list byte)) : M unit :=
  controlsocket_send (x52 :: concat data).

Definition reporting : M unit :=
  send [COMMAND_REPORTING; CONTINUOUS_REPORTING; EXTENSION_8BYTES].

Definition light (on_off : bool) : M unit :=
  send [COMMAND_LIGHT; if on_off then [x10] else [x00]].

Definition status : M unit :=
  send [COMMAND_REQUEST_STATUS; [x00]].

(** [connect]: the line [self.status] names the method and does not call
    it, so nothing is sent between the register write and [light(0)]. *)
Definition connect : M unit :=
  log LogConnecting;;
  c ← read controlsocket;
  c' ← lift (socket_connect c);
  update (set_controlsocket c');;
  r ← read receivesocket;
  r' ← lift (socket_connect r);
  update (set_receivesocket r');;
  send [COMMAND_READ_REGISTER; [x04; xa4; x00; x24; x00; x18]];;
  update (set_calibration_requested true);;
  log LogWaitCalibration;;
  send [COMMAND_REGISTER; [x04; xa4; x00; x40; x00]];;
  _ ← mret status;
  light false.

Definition on_status : M unit :=
  reporting;;
  log LogStatus;;
  light true.

Definition on_calibrated : M unit :=
  log LogCalibrated;;
  log PrintMeasurement;;
  light true.

Definition on_pressed : M unit := log LogPressed.
Definition on_released : M unit := log LogReleased.

Definition check_button (state : Z) : M unit :=
  down ← read button_down;
  if state =? BUTTON_DOWN_MASK then
    if negb down then
      update (set_button_down true);;
      on_pressed
    else pass
  else if down then
    update (set_button_down false);;
    on_released
  else pass.

(** [self.csv_writer.writerow(row)]. *)
Definition writerow (row : list float) : M unit := fun s =>
  if csv_writer s then
    if csv_file s then (Ok tt, emit (WriteRow row) s)
    else (Raise ValueError, s)
  else (Raise AttributeError, s).

Definition get_mass (data : list byte) : M mass_dict :=
  tbl ← read calibration;
  TR ← lift (calc_mass tbl (b2i (slice 0 2 data)) TOP_RIGHT);
  BR ← lift (calc_mass tbl (b2i (slice 2 4 data)) BOTTOM_RIGHT);
  TL ← lift (calc_mass tbl (b2i (slice 4 6 data)) TOP_LEFT);
  BL ← lift (calc_mass tbl (b2i (slice 6 8 data)) BOTTOM_LEFT);
  writerow [TR; BR; TL; BL];;
  mret (MassDict TR BR TL BL).

(** [close]: both socket objects are true in a condition. *)
Definition close : M unit :=
  update (set_csv_file false);;
  update (emit ClosedCsv);;
  update (set_running false);;
  update (set_receivesocket Closed);;
  update (emit ClosedReceive);;
  update (set_controlsocket Closed);;
  update (emit ClosedControl).

(** [__enter__] returns the object. *)
Definition __enter__ : M unit := pass.

(** [__exit__] closes the board and returns [not exc_type]: true, which
    makes a [with] statement drop the exception, only when there is
    none. *)
Definition __exit__ (exc_type : option exn) : M bool :=
  close;;
  mret (match exc_type with Some _ => false | None => true end).

(** [cal]: four 16-bit big-endian integers out of eight bytes. *)
Definition cal (d : list byte) : list Z :=
  map (fun j => b2i (slice j (j + 2) d)) [0; 2; 4; 6]%nat.

(** [collections.deque.append] on a deque bounded by [maxlen]. *)
Definition deque_append {A} (maxlen : nat) (x : A) (d : list A) : list A :=
  if (maxlen =? 0)%nat then d
  else if (List.length d <? maxlen)%nat then d ++ [x]
  else drop 1 d ++ [x].

(** [l[i] = x] for [0 <= i]. *)
Definition setitem {A} (l : list A) (i : nat) (x : A) : result (list A) :=
  if (i <? List.length l)%nat then Ok (<[i:=x]> l) else Raise IndexError.

(** ** [WiiboardSampling], [WiiboardPrint] and the receive loop *)

(** How a run of the program on the packets that the channel delivers
    ends: the program has ended, normally or with an exception, or the
    packets are used up and it waits in [recv] for the next one. *)
Inductive outcome : Type :=
  | Exited (r : result unit)
  | Waiting.

Section Session.

Variables N_SAMPLES N_LOOP T_SLEEP : Z.

(** [WiiboardPrint.on_sample].  The list of sums that the source builds
    from the window is never used and is left out. *)
Definition on_sample : M unit :=
  window ← read samples;
  if Z.of_nat (List.length window) =? N_SAMPLES then
    log PrintSession;;
    update (set_samples []);;
    status;;
    n ← read nloop;
    update (set_nloop (n + 1));;
    n ← read nloop;
    if n >? N_LOOP then close
    else
      light false;;
      update (emit (Slept T_SLEEP))
  else pass.

(** [WiiboardSampling.on_mass]. *)
Definition on_mass (mass : mass_dict) : M unit :=
  bound ← read maxlen;
  window ← read samples;
  update (set_samples (deque_append bound mass window));;
  on_sample.

(** The calibration branch of [loop]: the test of [length] is not under
    the test of [calibration_requested]; with the flag clear it reads
    the [length] of an earlier iteration and the packet as received. *)
Definition on_read_data (data : list byte) : M unit :=
  requested ← read calibration_requested;
  data ← (if (requested : bool) return M (list byte) then
            d4 ← lift (getitem data 4);
            let length := b2i_int (byte_val d4) / 16 + 1 in
            update (set_loop_length (Some length));;
            mret (slice 7 (7 + Z.to_nat length) data)
          else mret data);
  length ← read loop_length;
  match length with
  | None => raise UnboundLocalError
  | Some length =>
      if length =? 16 then
        update (set_calibration
                  [cal (slice 0 8 data); cal (slice 8 16 data);
                   replicate 4 SENTINEL])
      else if length <? 16 then
        tbl ← read calibration;
        tbl ← lift (setitem tbl 2 (cal (slice 0 8 data)));
        update (set_calibration tbl);;
        update (set_calibration_requested false);;
        on_calibrated
      else pass
  end.

(** One iteration of [loop] on the received [data]. *)
Definition handle (data : list byte) : M unit :=
  if (List.length data <? 2)%nat then pass
  else
    input_type ← lift (getitem data 1);
    let input_type := byte_val input_type in
    if input_type =? ord INPUT_STATUS then
      b ← lift (truediv (b2i (slice 7 9 data)) BATTERY_MAX);
      update (set_battery b);;
      d4 ← lift (getitem data 4);
      update (set_light_state (Z.land (byte_val d4) LED1_MASK =? LED1_MASK));;
      on_status
    else if input_type =? ord INPUT_READ_DATA then
      on_read_data data
    else if input_type =? ord EXTENSION_8BYTES then
      check_button (b2i (slice 2 4 data));;
      mass ← get_mass (slice 4 12 data);
      on_mass mass
    else pass.

(** [self.receivesocket.recv(25)] on the next packet of the channel. *)
Definition recv (packet : list byte) : M (list byte) := fun s =>
  match receivesocket s with
  | Connected => (Ok (take 25 packet), s)
  | _ => (Raise OSError, s)
  end.

(** The iterations of [loop] over the packets that the channel delivers;
    when they are used up the next [recv] would block, and the state is
    returned. *)
Fixpoint iterations (inbox : list (list byte)) : M unit :=
  match inbox with
  | [] => pass
  | packet :: inbox =>
      go ← read running;
      if (go : bool) then
        data ← recv packet;
        handle data;;
        iterations inbox
      else pass
  end.

(** [loop]: its local variable [length] is unbound when it starts. *)
Definition loop (inbox : list (list byte)) : M unit :=
  update (set_loop_length None);;
  iterations inbox.

(** The object that the constructors build when no address is given.  The
    source builds the table as three references to one row; no row is
    ever changed in place (a row is replaced, or the table is), so the
    rows are kept as three lists. *)
Definition new (nsamples : nat) : Wiiboard :=
  {| csv_writer := false;
     csv_file := true;
     controlsocket := Unconnected;
     receivesocket := Unconnected;
     calibration := replicate 3 (replicate 4 SENTINEL);
     calibration_requested := false;
     light_state := false;
     button_down := false;
     battery := PyFloat.zero;
     running := true;
     samples := [];
     maxlen := nsamples;
     nloop := 0;
     loop_length := None;
     trace := [] |}.

(** [WiiboardPrint(address, nsamples)]. *)
Definition WiiboardPrint (address : bool) (nsamples : nat)
  : result unit * Wiiboard :=
  (if address then connect else pass) (new nsamples).

(** The main program from the construction of the object on: the
    default bound of the window is [N_SAMPLES].  The body of the [with]
    statement runs between [__enter__] and [__exit__]; [__exit__] gets
    the exception of the body, if any, and the statement raises it
    again unless [__exit__] returns true.  [loop] returns with [running]
    still set only when the packets are used up: the program then waits
    in [recv] and [__exit__] is not reached. *)
Definition main (inbox : list (list byte)) : outcome * Wiiboard :=
  match WiiboardPrint true (Z.to_nat N_SAMPLES) with
  | (Raise e, s) => (Exited (Raise e), s)
  | (Ok _, wiiprint) =>
      match (__enter__;;
             update (set_csv_writer true);;
             loop inbox) wiiprint with
      | (Ok _, s) =>
          if running s then (Waiting, s)
          else
            match __exit__ None s with
            | (Ok _, s) => (Exited (Ok tt), s)
            | (Raise e, s) => (Exited (Raise e), s)
            end
      | (Raise e, s) =>
          match __exit__ (Some e) s with
          | (Ok true, s) => (Exited (Ok tt), s)
          | (Ok false, s) => (Exited (Raise e), s)
          | (Raise e', s) => (Exited (Raise e'), s)
          end
      end
  end.

End Session.

(** ** The weight rule of the specification *)

(** The rule of the specification for one corner, on its three reference
    values [c0], [c1], [c2] (0 kg, 17 kg, 34 kg): the quotient is a
    floating-point division, which fails when the two reference values
    are equal, and 17 multiplies the quotient. *)
Module Rule.

Definition quotient (n d : Z) : result float :=
  if d =? 0 then Raise ZeroDivisionError
  else Ok (PyFloat.div (PyFloat.of_Z n) (PyFloat.of_Z d)).

Definition mass (raw : Z) (c : Z * Z * Z) : result float :=
  let '(c0, c1, c2) := c in
  if raw <? c0 then Ok PyFloat.zero
  else if raw <? c1 then
    q ← quotient (raw - c0) (c1 - c0);
    Ok (PyFloat.mul PyFloat.seventeen q)
  else
    q ← quotient (raw - c1) (c2 - c1);
    Ok (PyFloat.add PyFloat.seventeen (PyFloat.mul PyFloat.seventeen q)).

End Rule.

(** ** Shapes and ranges *)

(** A 16-bit unsigned value: a raw reading, a decoded calibration value,
    and the sentinel as well. *)
Definition word16 (z : Z) : Prop := 0 <= z < 65536.

(** Three rows of four columns. *)
Definition shape_3x4 (tbl : list (list Z)) : Prop :=
  List.length tbl = 3%nat /\ Forall (fun row => List.length row = 4%nat) tbl.

(** A table as the driver holds it: 3 by 4, of 16-bit values. *)
Definition table_ok (tbl : list (list Z)) : Prop :=
  shape_3x4 tbl /\ Forall (Forall word16) tbl.

(** The reference values of corner [pos], read down the column. *)
Definition column (tbl : list (list Z)) (pos : nat) : Z * Z * Z :=
  (nth pos (nth 0 tbl []) 0, nth pos (nth 1 tbl []) 0, nth pos (nth 2 tbl []) 0).

(** ** Checking a property on a range of integers *)

Fixpoint all_from (n : nat) (z : Z) (p : Z -> bool) : bool :=
  match n with
  | O => true
  | S k => p z && all_from k (z + 1) p
  end.

(** What the conversion does on a value or a difference [z] of 16-bit
    data: the float is zero for 0 only, and otherwise it is finite, has the
    sign of [z] and a mantissa of 53 bits, and from 512 on its exponent is
    at least -43. *)
Definition exact16 (z : Z) : bool :=
  match PyFloat.of_Z z with
  | S754_zero s => (z =? 0) && negb s
  | S754_finite s m e =>
      negb (z =? 0) && Bool.eqb s (z <? 0)
      && (Zdigits2 (Z.pos m) =? 53)
      && ((Z.abs z <? 512) || (-43 <=? e))
  | _ => false
  end.

(** The calibration that the source quotes as coming from the factory. *)
Definition factory_calibration : list (list Z) :=
  [[5944; 3314; 12024; 4221]; [7688; 4994; 13794; 5967];
   [9449; 6683; 15565; 7716]].

(** ** Observations on a run *)

(** The frames that went out on the control channel, in order. *)
Definition sent_frames (tr : list event) : list (list byte) :=
  omap (fun e => match e with Sent frame => Some frame | _ => None end) tr.

(** The button-edge detector fed a sequence of masks, one call of
    [check_button] each. *)
Fixpoint check_buttons (masks : list Z) : M unit :=
  match masks with
  | [] => pass
  | state :: masks => check_button state;; check_buttons masks
  end.

(** The frames of the three commands that the handshake is to issue. *)
Definition frame_read_calibration : list byte :=
  [x52; x17; x04; xa4; x00; x24; x00; x18].
Definition frame_arm_extension : list byte :=
  [x52; x16; x04; xa4; x00; x40; x00].
Definition frame_request_status : list byte := [x52; x15; x00].
Definition frame_light_off : list byte := [x52; x11; x00].
Definition frame_light_on : list byte := [x52; x11; x10].

(** Calibration packets as the board sends them: sixteen bytes of data
    (references 100 and 200 for each corner), then eight (reference 300). *)
Definition first_fragment : list byte :=
  [xa1; x21; x00; x00; xf0; x00; x24;
   x00; x64; x00; x64; x00; x64; x00; x64;
   x00; xc8; x00; xc8; x00; xc8; x00; xc8].
Definition second_fragment : list byte :=
  [xa1; x21; x00; x00; x70; x00; x34;
   x01; x2c; x01; x2c; x01; x2c; x01; x2c].

(** A status packet whose battery field is [hi * 256 + lo]. *)
Definition status_packet (hi lo : byte) : list byte :=
  [xa1; x20; x00; x00; x10; x00; x00; hi; lo].

(** A method keeps a property of the object, however it ends. *)
Definition preserves {A} (P : Wiiboard -> Prop) (m : M A) : Prop :=
  forall s, P s -> P (snd (m s)).

(** ** Invariants of the object *)

(** The calibration table has three rows of four columns. *)
Definition table_shaped (s : Wiiboard) : Prop := shape_3x4 (calibration s).

(** Every cell of the table is a 16-bit value. *)
Definition cells_word16 (s : Wiiboard) : Prop :=
  Forall (Forall word16) (calibration s).

(** No calibration is requested. *)
Definition calibration_done (s : Wiiboard) : Prop :=
  calibration_requested s = false.

(** The window holds no more samples than its bound. *)
Definition window_bounded (s : Wiiboard) : Prop :=
  (List.length (samples s) <= maxlen s)%nat.

(** The window is bounded by [N] and is not full. *)
Definition window_open (N : Z) (s : Wiiboard) : Prop :=
  maxlen s = Z.to_nat N /\ Z.of_nat (List.length (samples s)) < N.

(** ** A sampling session *)

(** The four weights of an extension payload, as [get_mass] computes them
    before it writes the row. *)
Definition weigh (tbl : list (list Z)) (data : list byte) : result mass_dict :=
  TR ← calc_mass tbl (b2i (slice 0 2 data)) TOP_RIGHT;
  BR ← calc_mass tbl (b2i (slice 2 4 data)) BOTTOM_RIGHT;
  TL ← calc_mass tbl (b2i (slice 4 6 data)) TOP_LEFT;
  BL ← calc_mass tbl (b2i (slice 6 8 data)) BOTTOM_LEFT;
  Ok (MassDict TR BR TL BL).

(** A packet of the channel that carries a sample which the table [tbl]
    can weigh. *)
Definition sample_packet (tbl : list (list Z)) (packet : list byte) : Prop :=
  let data := take 25 packet in
  data !! 1%nat = Some x32 /\
  exists mass, weigh tbl (slice 4 12 data) = Ok mass.

(** The object is sampling: it runs on open channels with a writer on an
    open file, [tbl] is its table, its window is not full and at most
    [N_LOOP] epochs are complete. *)
Definition sampling (N_SAMPLES N_LOOP : Z) (tbl : list (list Z)) (s : Wiiboard)
  : Prop :=
  running s = true /\
  controlsocket s = Connected /\ receivesocket s = Connected /\
  csv_writer s = true /\ csv_file s = true /\
  calibration s = tbl /\
  window_open N_SAMPLES s /\
  0 <= nloop s <= N_LOOP.

(** The session is over: the loop is stopped and both channels are
    closed, after [N_LOOP + 1] epochs. *)
Definition terminated (N_LOOP : Z) (s : Wiiboard) : Prop :=
  running s = false /\
  controlsocket s = Closed /\ receivesocket s = Closed /\
  samples s = [] /\
  nloop s = N_LOOP + 1.

(** The samples taken so far: those of the complete epochs and those in
    the window. *)
Definition progress (N_SAMPLES : Z) (s : Wiiboard) : Z :=
  Z.of_nat (List.length (samples s)) + N_SAMPLES * nloop s.

(** The object when an epoch is complete: the window is cleared, a status
    request is sent and the epoch is counted. *)
Definition epoch_counted (s : Wiiboard) : Wiiboard :=
  set_nloop (nloop s + 1)
    (emit (Sent frame_request_status)
       (set_samples [] (emit (Logged PrintSession) s))).

(** The object when [close] has run. *)
Definition closed (s : Wiiboard) : Wiiboard :=
  emit ClosedControl
    (set_controlsocket Closed
       (emit ClosedReceive
          (set_receivesocket Closed
             (set_running false (emit ClosedCsv (set_csv_file false s)))))).

(** ** Boards and packets to run the driver on *)

(** An extension packet: the button is down and each corner reads 150. *)
Definition sample_packet_150 : list byte :=
  [xa1; x32; x00; x08; x00; x96; x00; x96; x00; x96; x00; x96].

(** The object of the main program, with a window of [nsamples], once the
    two calibration fragments have come. *)
Definition calibrated_board (nsamples : nat) : Wiiboard :=
  snd (loop Settings.N_SAMPLES Settings.N_LOOP Settings.T_SLEEP
         [first_fragment; second_fragment]
         (set_csv_writer true (snd (WiiboardPrint true nsamples)))).

(** The checks on the battery field [f]: the level is not negative, and it
    is at most 1.0 exactly when the field is at most 200. *)
Definition battery_check (f : Z) : bool :=
  let level := PyFloat.div (PyFloat.of_Z f) BATTERY_MAX in
  PyFloat.leb PyFloat.zero level
  && Bool.eqb (PyFloat.leb level PyFloat.one) (f <=? 200).

(** ** Rows and frames of a run *)

(** The row that [get_mass] writes for a sample. *)
Definition row_of (mass : mass_dict) : list float :=
  [top_right mass; bottom_right mass; top_left mass; bottom_left mass].

(** The rows written through the csv writer, in order. *)
Definition rows (tr : list event) : list (list float) :=
  omap (fun e => match e with WriteRow row => Some row | _ => None end) tr.

(** The row of a packet of the channel that carries a sample. *)
Definition packet_row (tbl : list (list Z)) (packet : list byte) : list float :=
  match weigh tbl (slice 4 12 (take 25 packet)) with
  | Ok mass => row_of mass
  | Raise _ => []
  end.

(** The frame of the reporting command. *)
Definition frame_reporting : list byte := [x52; x12; x04; x32].

(** The frames that the methods of the driver build. *)
Definition known_frames : list (list byte) :=
  [frame_read_calibration; frame_arm_extension; frame_request_status;
   frame_light_off; frame_light_on; frame_reporting].

(** Every frame that went out is one of them. *)
Definition frames_known (s : Wiiboard) : Prop :=
  Forall (fun frame => In frame known_frames) (sent_frames (trace s)).

(** An event that keeps [frames_known]. *)
Definition known_event (e : event) : Prop :=
  match e with
  | Sent frame => In frame known_frames
  | _ => True
  end.

(** The object has a window shorter than [N] samples, and its loop
    counter, running flag, channels and file are those of [s0]. *)
Definition short_window (N : Z) (s0 s : Wiiboard) : Prop :=
  Z.of_nat (maxlen s) < N /\ window_bounded s /\
  nloop s = nloop s0 /\ running s = running s0 /\
  controlsocket s = controlsocket s0 /\ receivesocket s = receivesocket s0 /\
  csv_file s = csv_file s0.

(** ** A window that slides *)

(** The last [n] elements of a list. *)
Definition lastn {A} (n : nat) (l : list A) : list A :=
  drop (List.length l - n) l.

(** The samples of the packets that the table [tbl] can weigh, in order. *)
Definition masses (tbl : list (list Z)) (inbox : list (list byte))
  : list mass_dict :=
  omap (fun packet =>
          match weigh tbl (slice 4 12 (take 25 packet)) with
          | Ok mass => Some mass
          | Raise _ => None
          end) inbox.

(** The object samples into a window of [bound] samples, less than [N]:
    it runs on an open receive channel with a writer on an open file and
    [tbl] is its table. *)
Definition sliding (N : Z) (tbl : list (list Z)) (bound : nat) (s : Wiiboard)
  : Prop :=
  running s = true /\ receivesocket s = Connected /\
  csv_writer s = true /\ csv_file s = true /\
  calibration s = tbl /\
  maxlen s = bound /\ Z.of_nat bound < N /\ window_bounded s.

(** The float 34.0. *)
Definition thirty_four : float := Eval vm_compute in PyFloat.of_Z 34.

(** * Properties *)

(** ** Bytes, slices and items *)

Lemma byte_val_range (b : byte) : 0 <= byte_val b <= 255.
Proof.
  unfold byte_val. pose proof (Byte.to_N_bounded b). lia.
Qed.

Lemma b2i_word16 (b : list byte) :
  (List.length b <= 2)%nat -> word16 (b2i b).
Proof.
  unfold word16, b2i, from_bytes_big.
  destruct b as [|x [|y [|z b]]]; cbn; intros Hlen; try lia.
  - pose proof (byte_val_range x). lia.
  - pose proof (byte_val_range x). pose proof (byte_val_range y). lia.
Qed.

Lemma slice_length {A} (i j : nat) (data : list A) :
  (List.length (slice i j data) <= j - i)%nat.
Proof. unfold slice. rewrite length_take. lia. Qed.

Lemma getitem_lookup {A} (l : list A) (i : nat) (x : A) :
  l !! i = Some x -> getitem l i = Ok x.
Proof. intros H. unfold getitem. by rewrite H. Qed.

Lemma length_ge_2 {A} (l : list A) (x : A) :
  l !! 1%nat = Some x -> (List.length l <? 2)%nat = false.
Proof.
  intros H. apply lookup_lt_Some in H. apply Nat.ltb_ge. lia.
Qed.

Lemma cal_length (d : list byte) : List.length (cal d) = 4%nat.
Proof. reflexivity. Qed.

(** Two bytes of a packet, as [get_mass] and [cal] read them, make a
    16-bit value. *)
Lemma raw_reading_word16 (i : nat) (data : list byte) :
  word16 (b2i (slice i (i + 2) data)).
Proof.
  apply b2i_word16. pose proof (slice_length i (i + 2) data). lia.
Qed.

Lemma cal_word16 (d : list byte) : Forall word16 (cal d).
Proof.
  unfold cal. cbn [map].
  repeat (constructor; [apply raw_reading_word16|]). constructor.
Qed.

Lemma all_from_spec (p : Z -> bool) (n : nat) :
  forall z, all_from n z p = true ->
  forall x, z <= x < z + Z.of_nat n -> p x = true.
Proof.
  induction n as [|k IH]; intros z Hall x Hx; [lia|].
  cbn [all_from] in Hall. apply andb_true_iff in Hall as [Hz Hk].
  destruct (Z.eq_dec x z) as [->|Hne]; [exact Hz|].
  apply (IH (z + 1)); [exact Hk|lia].
Qed.

Lemma exact16_all : all_from (Z.to_nat 131071) (-65535) exact16 = true.
Proof. vm_compute. reflexivity. Qed.

Lemma exact16_range (z : Z) : -65535 <= z <= 65535 -> exact16 z = true.
Proof.
  intros Hz. apply (all_from_spec exact16 _ (-65535) exact16_all).
  rewrite Z2Nat.id; lia.
Qed.

Lemma float_of_int_16 (z : Z) :
  -65535 <= z <= 65535 -> float_of_int z = Ok (PyFloat.of_Z z).
Proof.
  intros Hz. pose proof (exact16_range z Hz) as H.
  unfold float_of_int, exact16 in *.
  by destruct (PyFloat.of_Z z).
Qed.

Lemma is_zero_16 (z : Z) :
  -65535 <= z <= 65535 -> PyFloat.is_zero (PyFloat.of_Z z) = (z =? 0).
Proof.
  intros Hz. pose proof (exact16_range z Hz) as H.
  unfold exact16 in H.
  destruct (PyFloat.of_Z z) as [s| | |s m e]; cbn [PyFloat.is_zero];
    try discriminate H.
  - apply andb_true_iff in H as [H _]. by rewrite H.
  - repeat (apply andb_true_iff in H as [H _]).
    by destruct (z =? 0).
Qed.

(** The float of a positive 16-bit value. *)
Lemma of_Z_positive (z : Z) :
  1 <= z <= 65535 ->
  exists m e,
    PyFloat.of_Z z = S754_finite false m e /\
    Zdigits2 (Z.pos m) = 53 /\
    (512 <= z -> -43 <= e).
Proof.
  intros Hz. pose proof (exact16_range z ltac:(lia)) as H.
  unfold exact16 in H.
  destruct (PyFloat.of_Z z) as [s| | |s m e]; try discriminate H.
  - apply andb_true_iff in H as [H _]. apply Z.eqb_eq in H. lia.
  - apply andb_true_iff in H as [H Hexp].
    apply andb_true_iff in H as [H Hdigits].
    apply andb_true_iff in H as [_ Hsign].
    apply Bool.eqb_prop in Hsign. apply Z.eqb_eq in Hdigits.
    destruct (Z.ltb_spec z 0) as [?|_]; [lia|]. subst s.
    exists m, e. split; [reflexivity|]. split; [exact Hdigits|].
    intros Hbig. apply orb_true_iff in Hexp as [Hsmall|Hexp].
    + apply Z.ltb_lt in Hsmall. lia.
    + by apply Z.leb_le.
Qed.

Lemma truediv_16 (n d : Z) :
  -65535 <= n <= 65535 -> -65535 <= d <= 65535 ->
  truediv n (PyFloat.of_Z d) = Rule.quotient n d.
Proof.
  intros Hn Hd. unfold truediv, Rule.quotient.
  rewrite (float_of_int_16 n Hn). cbn [mbind result_bind].
  rewrite (is_zero_16 d Hd). reflexivity.
Qed.

Lemma below_17kg_16 (c0 c1 raw : Z) :
  word16 c0 -> word16 c1 -> word16 raw ->
  below_17kg c0 c1 raw =
    (q ← Rule.quotient (raw - c0) (c1 - c0);
     Ok (PyFloat.mul PyFloat.seventeen q)).
Proof.
  unfold word16. intros H0 H1 Hr. unfold below_17kg.
  rewrite float_of_int_16 by lia. cbn [mbind result_bind].
  rewrite truediv_16 by lia. reflexivity.
Qed.

Lemma above_17kg_16 (c1 c2 raw : Z) :
  word16 c1 -> word16 c2 -> word16 raw ->
  above_17kg c1 c2 raw =
    (q ← Rule.quotient (raw - c1) (c2 - c1);
     Ok (PyFloat.add PyFloat.seventeen (PyFloat.mul PyFloat.seventeen q))).
Proof.
  unfold word16. intros H1 H2 Hr. unfold above_17kg.
  rewrite float_of_int_16 by lia. cbn [mbind result_bind].
  rewrite truediv_16 by lia. reflexivity.
Qed.

(** ** Reading a well-shaped table *)

Lemma length_4_inv {A} (row : list A) :
  List.length row = 4%nat -> exists a b c d, row = [a; b; c; d].
Proof.
  destruct row as [|a [|b [|c [|d [|e row]]]]]; cbn; intros H; try discriminate H.
  by exists a, b, c, d.
Qed.

Lemma shape_3x4_inv (tbl : list (list Z)) :
  shape_3x4 tbl ->
  exists a0 a1 a2 a3 b0 b1 b2 b3 c0 c1 c2 c3,
    tbl = [[a0; a1; a2; a3]; [b0; b1; b2; b3]; [c0; c1; c2; c3]].
Proof.
  intros [Hlen Hrows].
  destruct tbl as [|r0 [|r1 [|r2 [|r3 tbl]]]]; cbn in Hlen; try discriminate Hlen.
  apply Forall_cons in Hrows as [H0 Hrows].
  apply Forall_cons in Hrows as [H1 Hrows].
  apply Forall_cons in Hrows as [H2 _].
  destruct (length_4_inv r0 H0) as (a0 & a1 & a2 & a3 & ->).
  destruct (length_4_inv r1 H1) as (b0 & b1 & b2 & b3 & ->).
  destruct (length_4_inv r2 H2) as (c0 & c1 & c2 & c3 & ->).
  by exists a0, a1, a2, a3, b0, b1, b2, b3, c0, c1, c2, c3.
Qed.

Lemma shape_3x4_rows (r0 r1 r2 : list Z) :
  List.length r0 = 4%nat -> List.length r1 = 4%nat -> List.length r2 = 4%nat ->
  shape_3x4 [r0; r1; r2].
Proof. intros H0 H1 H2. split; [reflexivity|]. by repeat constructor. Qed.

Lemma cell_shape (tbl : list (list Z)) (row pos : nat) :
  shape_3x4 tbl -> (row < 3)%nat -> (pos < 4)%nat ->
  cell tbl row pos = Ok (nth pos (nth row tbl []) 0).
Proof.
  intros Hshape Hrow Hpos.
  destruct (shape_3x4_inv tbl Hshape)
    as (a0 & a1 & a2 & a3 & b0 & b1 & b2 & b3 & c0 & c1 & c2 & c3 & ->).
  destruct row as [|[|[|row]]]; [| | |lia];
    (destruct pos as [|[|[|[|pos]]]]; [| | | |lia]); reflexivity.
Qed.

Lemma cell_word16 (tbl : list (list Z)) (row pos : nat) :
  table_ok tbl -> (row < 3)%nat -> (pos < 4)%nat ->
  word16 (nth pos (nth row tbl []) 0).
Proof.
  intros [Hshape Hcells] Hrow Hpos.
  destruct (shape_3x4_inv tbl Hshape)
    as (a0 & a1 & a2 & a3 & b0 & b1 & b2 & b3 & c0 & c1 & c2 & c3 & ->).
  repeat match goal with
         | H : Forall _ (_ :: _) |- _ => apply Forall_cons in H as [? H]
         end.
  destruct row as [|[|[|row]]]; [| | |lia];
    (destruct pos as [|[|[|[|pos]]]]; [| | | |lia]); assumption.
Qed.

Lemma calc_mass_column (tbl : list (list Z)) (raw : Z) (pos : nat) :
  shape_3x4 tbl -> (pos < 4)%nat ->
  calc_mass tbl raw pos =
    let '(c0, c1, c2) := column tbl pos in
    if raw <? c0 then Ok PyFloat.zero
    else if raw <? c1 then below_17kg c0 c1 raw
    else above_17kg c1 c2 raw.
Proof.
  intros Hshape Hpos. unfold calc_mass, column.
  rewrite !cell_shape by (assumption || lia). cbn [mbind result_bind].
  destruct (raw <? _); [reflexivity|].
  destruct (raw <? _); reflexivity.
Qed.

(** C1. For a table as the driver holds it and each of the four corner
    positions, [calc_mass] is the three-branch rule of the specification on
    the column of that corner: 0.0 below the 0 kg reference, 17 times the
    quotient up to the 17 kg reference, 17 plus 17 times the quotient from
    there on; in particular every raw reading below the 0 kg reference
    weighs 0.0. *)
Theorem calc_mass_piecewise (tbl : list (list Z)) (pos : nat) :
  table_ok tbl -> (pos < 4)%nat ->
  (forall raw, word16 raw ->
     calc_mass tbl raw pos = Rule.mass raw (column tbl pos)) /\
  (forall raw, raw < nth pos (nth 0 tbl []) 0 ->
     calc_mass tbl raw pos = Ok PyFloat.zero).
Proof.
  intros Hok Hpos. pose proof Hok as [Hshape _].
  pose proof (cell_word16 tbl 0 pos Hok ltac:(lia) Hpos) as H0.
  pose proof (cell_word16 tbl 1 pos Hok ltac:(lia) Hpos) as H1.
  pose proof (cell_word16 tbl 2 pos Hok ltac:(lia) Hpos) as H2.
  split; intros raw Hraw; rewrite calc_mass_column by assumption;
    unfold column, Rule.mass.
  - destruct (raw <? _); [reflexivity|].
    destruct (raw <? _).
    + by apply below_17kg_16.
    + by apply above_17kg_16.
  - apply Z.ltb_lt in Hraw. by rewrite Hraw.
Qed.

Lemma factory_calibration_ok : table_ok factory_calibration.
Proof.
  split; [split; [reflexivity|by repeat constructor]|].
  repeat constructor; unfold word16; lia.
Qed.

Lemma calc_mass_piecewise_witness :
  calc_mass factory_calibration 6816 TOP_RIGHT
    = Rule.mass 6816 (column factory_calibration TOP_RIGHT) /\
  calc_mass factory_calibration 5000 TOP_RIGHT = Ok PyFloat.zero.
Proof.
  destruct (calc_mass_piecewise factory_calibration TOP_RIGHT
              factory_calibration_ok ltac:(unfold TOP_RIGHT; lia)) as [Hrule Hzero].
  split.
  - apply Hrule. unfold word16. lia.
  - apply Hzero. vm_compute. reflexivity.
Defined.

(** The rule multiplies the quotient by 17, as the source does.  Dividing
    the product of 17 and the difference instead rounds differently: for a
    difference of 1 over a span of 3 the two results are neighbours. *)
Remark quotient_then_product :
  PyFloat.mul PyFloat.seventeen (PyFloat.div (PyFloat.of_Z 1) (PyFloat.of_Z 3))
    = S754_finite false 6380099472108202 (-50) /\
  PyFloat.div (PyFloat.mul PyFloat.seventeen (PyFloat.of_Z 1)) (PyFloat.of_Z 3)
    = S754_finite false 6380099472108203 (-50).
Proof. split; vm_compute; reflexivity. Qed.

(** ** The two interpolations meet at the 17 kg reference *)

(** ** Rounding a quotient of normal floats *)

Lemma digits2_pos_size (p : positive) : digits2_pos p = Pos.size p.
Proof. induction p as [p IH|p IH|]; cbn; by rewrite ?IH. Qed.

Lemma Zdigits2_bounds (p : positive) :
  2 ^ (Zdigits2 (Zpos p) - 1) <= Zpos p < 2 ^ Zdigits2 (Zpos p).
Proof.
  cbn [Zdigits2]. rewrite digits2_pos_size.
  pose proof (Pos.size_gt p) as Hgt. pose proof (Pos.size_le p) as Hle.
  apply Pos2Z.pos_lt_pos in Hgt. apply Pos2Z.pos_le_pos in Hle.
  rewrite Pos2Z.inj_pow in Hgt, Hle.
  split; [|exact Hgt].
  set (d := Z.pos (Pos.size p)) in *.
  assert (2 ^ d = 2 * 2 ^ (d - 1)) as Hd.
  { replace d with (Z.succ (d - 1)) at 1 by lia. apply Z.pow_succ_r. lia. }
  lia.
Qed.

Lemma shr_1_m (mrs : shr_record) :
  0 <= shr_m mrs -> shr_m (shr_1 mrs) = shr_m mrs / 2.
Proof.
  destruct mrs as [m r s]. cbn [shr_m shr_1]. intros Hm.
  destruct m as [|[p|p|]|p]; cbn [shr_m]; [reflexivity| | |reflexivity|lia].
  - apply Z.div_unique with 1; lia.
  - apply Z.div_unique with 0; lia.
Qed.

Lemma iter_shr_1_m (n : positive) :
  forall mrs, 0 <= shr_m mrs ->
  shr_m (SpecFloat.iter_pos shr_1 n mrs) = shr_m mrs / 2 ^ Zpos n.
Proof.
  induction n as [n IH|n IH|]; intros mrs Hm; cbn [SpecFloat.iter_pos].
  - assert (0 <= shr_m (shr_1 mrs)) as H1.
    { rewrite shr_1_m by exact Hm. apply Z.div_pos; lia. }
    assert (0 <= shr_m (SpecFloat.iter_pos shr_1 n (shr_1 mrs))) as H2.
    { rewrite IH by exact H1. apply Z.div_pos; [exact H1|]. apply Z.pow_pos_nonneg; lia. }
    rewrite IH by exact H2. rewrite IH by exact H1. rewrite shr_1_m by exact Hm.
    rewrite !Z.div_div by (try apply Z.pow_pos_nonneg; lia).
    f_equal. rewrite Pos2Z.inj_xI.
    replace (2 * Z.pos n + 1) with (1 + Z.pos n + Z.pos n) by lia.
    rewrite !Z.pow_add_r by lia. lia.
  - assert (0 <= shr_m (SpecFloat.iter_pos shr_1 n mrs)) as H2.
    { rewrite IH by exact Hm. apply Z.div_pos; [exact Hm|]. apply Z.pow_pos_nonneg; lia. }
    rewrite IH by exact H2. rewrite IH by exact Hm.
    rewrite !Z.div_div by (try apply Z.pow_pos_nonneg; lia).
    f_equal. change (Z.pos n~0) with (2 * Z.pos n).
    replace (2 * Z.pos n) with (Z.pos n + Z.pos n) by lia.
    rewrite !Z.pow_add_r by lia. lia.
  - rewrite shr_1_m by exact Hm. reflexivity.
Qed.

Lemma shr_record_of_loc_m (m : Z) (l : location) :
  shr_m (shr_record_of_loc m l) = m.
Proof. by destruct l as [|[]]. Qed.

(** A mantissa of at least 53 bits stays one through the shift that
    brings it to 53 bits, and the exponent does not go down. *)
Lemma shr_fexp_normal (m e : Z) (l : location) :
  2 ^ 52 <= m -> emin PyFloat.prec PyFloat.emax <= e ->
  2 ^ 52 <= shr_m (fst (shr_fexp PyFloat.prec PyFloat.emax m e l)) /\
  e <= snd (shr_fexp PyFloat.prec PyFloat.emax m e l).
Proof.
  intros Hm He. destruct m as [|p|p]; try lia.
  pose proof (Zdigits2_bounds p) as [Hlo Hhi].
  assert (53 <= Zdigits2 (Z.pos p)) as Hd.
  { destruct (Z.le_gt_cases 53 (Zdigits2 (Z.pos p))) as [H|H]; [exact H|].
    assert (2 ^ Zdigits2 (Z.pos p) <= 2 ^ 52); [|lia].
    apply Z.pow_le_mono_r; lia. }
  unfold shr_fexp, fexp, shr.
  change PyFloat.prec with 53 in *. unfold PyFloat.prec.
  rewrite Z.max_l by (unfold emin, PyFloat.emax, PyFloat.prec in *; lia).
  replace (Zdigits2 (Z.pos p) + e - 53 - e) with (Zdigits2 (Z.pos p) - 53) by lia.
  destruct (Zdigits2 (Z.pos p) - 53) as [|n|n] eqn:Hn; cbn [fst snd].
  - rewrite shr_record_of_loc_m. split; lia.
  - rewrite iter_shr_1_m by (rewrite shr_record_of_loc_m; lia).
    rewrite shr_record_of_loc_m. split; [|lia].
    apply Z.div_le_lower_bound; [apply Z.pow_pos_nonneg; lia|].
    rewrite <- Z.pow_add_r by lia.
    replace (Z.pos n + 52) with (Zdigits2 (Z.pos p) - 1) by lia. exact Hlo.
  - lia.
Qed.

Lemma round_nearest_even_ge (m : Z) (l : location) :
  m <= round_nearest_even m l.
Proof.
  unfold round_nearest_even. destruct l as [|[]]; try lia.
  destruct (Z.even m); lia.
Qed.

(** Rounding a mantissa of at least 53 bits gives a positive float, finite
    or infinite, whose exponent is not below the one given. *)
Lemma binary_round_aux_normal (m e : Z) (l : location) :
  2 ^ 52 <= m -> emin PyFloat.prec PyFloat.emax <= e ->
  (exists m' e', binary_round_aux PyFloat.prec PyFloat.emax false m e l
                  = S754_finite false m' e' /\ e <= e') \/
  binary_round_aux PyFloat.prec PyFloat.emax false m e l = S754_infinity false.
Proof.
  intros Hm He. unfold binary_round_aux.
  pose proof (shr_fexp_normal m e l Hm He) as [Hm1 He1].
  destruct (shr_fexp PyFloat.prec PyFloat.emax m e l) as [mrs1 e1].
  cbn [fst snd] in Hm1, He1.
  pose proof (round_nearest_even_ge (shr_m mrs1) (loc_of_shr_record mrs1)) as Hr.
  pose proof (shr_fexp_normal
                (round_nearest_even (shr_m mrs1) (loc_of_shr_record mrs1))
                e1 loc_Exact ltac:(lia) ltac:(lia)) as [Hm2 He2].
  destruct (shr_fexp PyFloat.prec PyFloat.emax _ e1 loc_Exact) as [mrs2 e2].
  cbn [fst snd] in Hm2, He2.
  destruct (shr_m mrs2) as [|m'|m']; try lia.
  destruct (e2 <=? PyFloat.emax - PyFloat.prec); [left|right; reflexivity].
  exists m', e2. split; [reflexivity|lia].
Qed.

(** A float divided by itself is 1.0. *)
Lemma div_self (s : bool) (m : positive) (e : Z) :
  PyFloat.div (S754_finite s m e) (S754_finite s m e) = PyFloat.one.
Proof.
  unfold PyFloat.div, SFdiv, SFdiv_core_binary.
  replace (Zdigits2 (Z.pos m) + e - (Zdigits2 (Z.pos m) + e)) with 0 by lia.
  replace (e - e) with 0 by lia.
  change (Z.min (fexp PyFloat.prec PyFloat.emax 0) 0) with (-53).
  change (0 - -53) with 53. cbv beta iota.
  change IntDef.Z.div_eucl with Z.div_eucl.
  assert (Z.div_eucl (Z.shiftl (Z.pos m) 53) (Z.pos m) = (2 ^ 53, 0)) as ->.
  { rewrite Z.shiftl_mul_pow2 by lia.
    pose proof (Z.div_eucl_eq (Z.pos m * 2 ^ 53) (Z.pos m) ltac:(lia)) as Heq.
    pose proof (Z.mod_pos_bound (Z.pos m * 2 ^ 53) (Z.pos m) ltac:(lia)) as Hr.
    unfold Z.modulo in Hr.
    destruct (Z.div_eucl (Z.pos m * 2 ^ 53) (Z.pos m)) as [q r].
    assert (r = Z.pos m * (2 ^ 53 - q)) as Hrq by lia.
    assert (2 ^ 53 - q = 0) by nia.
    f_equal; nia. }
  assert (new_location (Z.pos m) 0 = loc_Exact) as ->.
  { unfold new_location. by destruct (Z.even (Z.pos m)). }
  destruct s; vm_compute; reflexivity.
Qed.

(** The quotient of two positive floats with 53-bit mantissas is a
    positive float, finite or infinite, and its exponent is not below the
    difference of the exponents less 53. *)
Lemma div_normal (m1 m2 : positive) (e1 e2 : Z) :
  Zdigits2 (Z.pos m1) = 53 -> Zdigits2 (Z.pos m2) = 53 ->
  emin PyFloat.prec PyFloat.emax <= e1 - e2 - 53 ->
  (exists m e,
     PyFloat.div (S754_finite false m1 e1) (S754_finite false m2 e2)
       = S754_finite false m e /\ e1 - e2 - 53 <= e) \/
  PyFloat.div (S754_finite false m1 e1) (S754_finite false m2 e2)
    = S754_infinity false.
Proof.
  intros Hd1 Hd2 He.
  pose proof (Zdigits2_bounds m1) as [Hlo1 _].
  pose proof (Zdigits2_bounds m2) as [_ Hhi2].
  rewrite Hd1 in Hlo1. rewrite Hd2 in Hhi2.
  unfold PyFloat.div, SFdiv, SFdiv_core_binary. rewrite Hd1, Hd2.
  assert (Z.min (fexp PyFloat.prec PyFloat.emax (53 + e1 - (53 + e2))) (e1 - e2)
          = e1 - e2 - 53) as ->.
  { unfold fexp. change PyFloat.prec with 53 in *.
    rewrite Z.max_l by lia. lia. }
  replace (e1 - e2 - (e1 - e2 - 53)) with 53 by lia. cbv beta iota.
  change IntDef.Z.div_eucl with Z.div_eucl.
  rewrite Z.shiftl_mul_pow2 by lia.
  pose proof (Z.div_eucl_eq (Z.pos m1 * 2 ^ 53) (Z.pos m2) ltac:(lia)) as Heq.
  pose proof (Z.mod_pos_bound (Z.pos m1 * 2 ^ 53) (Z.pos m2) ltac:(lia)) as Hr.
  unfold Z.modulo in Hr.
  destruct (Z.div_eucl (Z.pos m1 * 2 ^ 53) (Z.pos m2)) as [q r].
  cbn [xorb].
  apply binary_round_aux_normal; [|exact He].
  change (2 ^ 52) with 4503599627370496 in *.
  change (2 ^ 53) with 9007199254740992 in *.
  change (2 ^ (53 - 1)) with 4503599627370496 in *.
  nia.
Qed.

Lemma quotient_self (d : Z) :
  1 <= d <= 65535 ->
  Rule.quotient d d = Ok PyFloat.one /\ Rule.quotient 0 d = Ok PyFloat.zero.
Proof.
  intros Hd. destruct (of_Z_positive d Hd) as (m & e & Hfloat & _).
  unfold Rule.quotient. destruct (Z.eqb_spec d 0) as [->|_]; [lia|].
  rewrite Hfloat. split; f_equal.
  apply div_self.
Qed.

Lemma below_17kg_at_reference (c0 c1 : Z) :
  word16 c0 -> word16 c1 -> c0 < c1 ->
  below_17kg c0 c1 c1 = Ok PyFloat.seventeen.
Proof.
  intros H0 H1 H01. rewrite below_17kg_16 by assumption.
  unfold word16 in H0, H1.
  destruct (quotient_self (c1 - c0) ltac:(lia)) as [-> _]. reflexivity.
Qed.

Lemma above_17kg_at_reference (c1 c2 : Z) :
  word16 c1 -> word16 c2 -> c1 < c2 ->
  above_17kg c1 c2 c1 = Ok PyFloat.seventeen.
Proof.
  intros H1 H2 H12. rewrite above_17kg_16 by assumption.
  unfold word16 in H1, H2. replace (c1 - c1) with 0 by lia.
  destruct (quotient_self (c2 - c1) ltac:(lia)) as [_ ->]. reflexivity.
Qed.

(** On the driver's table: at the 17 kg reference of a corner [calc_mass]
    returns 17.0, the value that the lower interpolation reaches there. *)
Lemma calc_mass_at_17kg (tbl : list (list Z)) (pos : nat) :
  table_ok tbl -> (pos < 4)%nat ->
  nth pos (nth 0 tbl []) 0 < nth pos (nth 1 tbl []) 0 < nth pos (nth 2 tbl []) 0 ->
  calc_mass tbl (nth pos (nth 1 tbl []) 0) pos = Ok PyFloat.seventeen.
Proof.
  intros Hok Hpos Hlt. pose proof Hok as [Hshape _].
  rewrite calc_mass_column by assumption. unfold column.
  destruct (Z.ltb_spec (nth pos (nth 1 tbl []) 0) (nth pos (nth 0 tbl []) 0));
    [lia|].
  rewrite Z.ltb_irrefl.
  apply above_17kg_at_reference; try (apply cell_word16; (assumption || lia)).
  lia.
Qed.

(** C9. With reference values in strict order, the interpolation below the
    17 kg reference and the one above it give the same weight, 17.0, when
    the raw reading is the 17 kg reference itself. *)
Theorem mass_continuous_at_17kg (c0 c1 c2 : Z) :
  word16 c0 -> word16 c1 -> word16 c2 ->
  c0 < c1 < c2 ->
  below_17kg c0 c1 c1 = Ok PyFloat.seventeen /\
  above_17kg c1 c2 c1 = Ok PyFloat.seventeen.
Proof.
  intros H0 H1 H2 [H01 H12]. split.
  - by apply below_17kg_at_reference.
  - by apply above_17kg_at_reference.
Qed.

Lemma mass_continuous_at_17kg_witness :
  below_17kg 5944 7688 7688 = Ok PyFloat.seventeen /\
  above_17kg 7688 9449 7688 = Ok PyFloat.seventeen.
Proof.
  apply (mass_continuous_at_17kg 5944 7688 9449); unfold word16; lia.
Defined.

(** ** Running the monad *)

Lemma bind_run {A B} (m : M A) (f : A -> M B) (s : Wiiboard) :
  (m ≫= f) s =
    match m s with
    | (Ok a, s') => f a s'
    | (Raise e, s') => (Raise e, s')
    end.
Proof. reflexivity. Qed.

Lemma bind_read {A B} (g : Wiiboard -> A) (f : A -> M B) (s : Wiiboard) :
  (read g ≫= f) s = f (g s) s.
Proof. reflexivity. Qed.

Lemma bind_update {B} (g : Wiiboard -> Wiiboard) (f : unit -> M B) (s : Wiiboard) :
  (update g ≫= f) s = f tt (g s).
Proof. reflexivity. Qed.

Lemma bind_log {B} (m : message) (f : unit -> M B) (s : Wiiboard) :
  (log m ≫= f) s = f tt (emit (Logged m) s).
Proof. reflexivity. Qed.

Lemma bind_lift {A B} (r : result A) (f : A -> M B) (s : Wiiboard) :
  (lift r ≫= f) s =
    match r with
    | Ok a => f a s
    | Raise e => (Raise e, s)
    end.
Proof. by destruct r. Qed.

(** ** The button-edge detector *)

Lemma check_button_run (state : Z) (s : Wiiboard) :
  check_button state s =
    (Ok tt,
     if state =? BUTTON_DOWN_MASK then
       if button_down s then s
       else emit (Logged LogPressed) (set_button_down true s)
     else if button_down s then emit (Logged LogReleased) (set_button_down false s)
     else s).
Proof.
  unfold check_button, on_pressed, on_released, log, pass, read, update.
  unfold mbind, M_bind, mret, M_ret.
  by destruct (state =? BUTTON_DOWN_MASK), (button_down s).
Qed.

(** C8. From the not-pressed state, the masks down, down, down, up, up
    (with any two masks other than the down pattern for up) add to the
    trace the pressed event and then the released event, and nothing
    else. *)
Theorem button_edges_once (s : Wiiboard) (up1 up2 : Z) :
  button_down s = false ->
  up1 <> BUTTON_DOWN_MASK -> up2 <> BUTTON_DOWN_MASK ->
  let down := BUTTON_DOWN_MASK in
  let r := check_buttons [down; down; down; up1; up2] s in
  fst r = Ok tt /\
  trace (snd r) = trace s ++ [Logged LogPressed; Logged LogReleased].
Proof.
  intros Hs H1 H2 down r. subst r down.
  apply Z.eqb_neq in H1, H2.
  unfold check_buttons. unfold mbind, M_bind.
  rewrite !check_button_run. cbn.
  rewrite Hs. cbn. rewrite H1. cbn. rewrite H2. cbn.
  split; [reflexivity|]. by rewrite <- app_assoc.
Qed.

Lemma button_edges_once_witness :
  trace (snd (check_buttons [8; 8; 8; 0; 0] (new 0)))
    = [Logged LogPressed; Logged LogReleased].
Proof.
  apply (button_edges_once (new 0) 0 0);
    [reflexivity|discriminate|discriminate].
Defined.

(** C10. After one call of [check_button] on the mask [state], the flag
    [button_down] is the truth value of [state == BUTTON_DOWN_MASK],
    whatever it was before. *)
Theorem check_button_tracks_mask (state : Z) (s : Wiiboard) :
  button_down (snd (check_button state s)) = (state =? BUTTON_DOWN_MASK).
Proof.
  rewrite check_button_run. cbn [snd].
  destruct (state =? BUTTON_DOWN_MASK), (button_down s) eqn:Hdown;
    cbn; congruence.
Qed.

(** ** Properties that every step keeps *)

Section Preserves.

Variable P : Wiiboard -> Prop.

Lemma preserves_ret {A} (a : A) : preserves P (mret a).
Proof. intros s Hs. exact Hs. Qed.

Lemma preserves_raise {A} (e : exn) : preserves P (@raise A e).
Proof. intros s Hs. exact Hs. Qed.

Lemma preserves_lift {A} (r : result A) : preserves P (lift r).
Proof. intros s Hs. exact Hs. Qed.

Lemma preserves_read {A} (g : Wiiboard -> A) : preserves P (read g).
Proof. intros s Hs. exact Hs. Qed.

Lemma preserves_update (g : Wiiboard -> Wiiboard) :
  (forall s, P s -> P (g s)) -> preserves P (update g).
Proof. intros Hg s Hs. by apply Hg. Qed.

Lemma preserves_bind {A B} (m : M A) (f : A -> M B) :
  preserves P m -> (forall a, preserves P (f a)) -> preserves P (m ≫= f).
Proof.
  intros Hm Hf s Hs. rewrite bind_run. specialize (Hm s Hs).
  destruct (m s) as [[a|e] s']; cbn [snd] in *.
  - by apply Hf.
  - exact Hm.
Qed.

(** The property does not look at the trace. *)
Hypothesis P_emit : forall e s, P s -> P (emit e s).

Lemma preserves_log (m : message) : preserves P (log m).
Proof. apply preserves_update. intros s. apply P_emit. Qed.

Lemma preserves_controlsocket_send (frame : list byte) :
  preserves P (controlsocket_send frame).
Proof.
  intros s Hs. unfold controlsocket_send.
  destruct (controlsocket s); cbn [snd]; auto.
Qed.

Lemma preserves_send (data : list (list byte)) : preserves P (send data).
Proof. apply preserves_controlsocket_send. Qed.

Lemma preserves_light (on_off : bool) : preserves P (light on_off).
Proof. apply preserves_send. Qed.

Lemma preserves_status : preserves P status.
Proof. apply preserves_send. Qed.

Lemma preserves_reporting : preserves P reporting.
Proof. apply preserves_send. Qed.

Lemma preserves_on_status : preserves P on_status.
Proof.
  unfold on_status.
  repeat (apply preserves_bind; [|intros ?]);
    auto using preserves_reporting, preserves_log, preserves_light.
Qed.

Lemma preserves_on_calibrated : preserves P on_calibrated.
Proof.
  unfold on_calibrated.
  repeat (apply preserves_bind; [|intros ?]);
    auto using preserves_log, preserves_light.
Qed.

Lemma preserves_writerow (row : list float) : preserves P (writerow row).
Proof.
  intros s Hs. unfold writerow.
  destruct (csv_writer s), (csv_file s); cbn [snd]; auto.
Qed.

Lemma preserves_get_mass (data : list byte) : preserves P (get_mass data).
Proof.
  unfold get_mass.
  repeat (apply preserves_bind; [|intros ?]);
    auto using preserves_read, preserves_lift, preserves_writerow, preserves_ret.
Qed.

Lemma preserves_recv (packet : list byte) : preserves P (recv packet).
Proof.
  intros s Hs. unfold recv. destruct (receivesocket s); cbn [snd]; auto.
Qed.

(** The property does not look at the button flag either. *)
Hypothesis P_button : forall v s, P s -> P (set_button_down v s).

Lemma preserves_check_button (state : Z) : preserves P (check_button state).
Proof.
  intros s Hs. rewrite check_button_run. cbn [snd].
  destruct (state =? BUTTON_DOWN_MASK), (button_down s); auto.
Qed.

End Preserves.

(** One step of a proof that a method keeps a property: the structure of
    the method is followed, and an assignment to an attribute that the
    property does not read is discharged by conversion. *)
Create HintDb preserved.

Ltac keeps_step :=
  first
    [ assumption
    | solve [auto 1 with preserved nocore]
    | apply preserves_ret
    | apply preserves_raise
    | apply preserves_lift
    | apply preserves_read
    | apply preserves_log; [intros ? ? ?; assumption]
    | apply preserves_controlsocket_send; [intros ? ? ?; assumption]
    | apply preserves_writerow; [intros ? ? ?; assumption]
    | apply preserves_recv
    | apply preserves_check_button;
        [intros ? ? ?; assumption|intros ? ? ?; assumption]
    | apply preserves_update; intros ? ?; first [assumption|reflexivity]
    | apply preserves_bind; [|intros ?]
    | match goal with
      | |- preserves _ (if ?b then _ else _) => destruct b
      | |- preserves _ (match ?x with Some _ => _ | None => _ end) => destruct x
      end ].

Ltac keeps := repeat keeps_step.

Lemma preserves_close (P : Wiiboard -> Prop) :
  (forall s, P s -> P (snd (close s))) -> preserves P close.
Proof. intros H. exact H. Qed.

(** *** The table stays 3 by 4 *)

Lemma setitem_shape (tbl : list (list Z)) (row : list Z) :
  shape_3x4 tbl -> List.length row = 4%nat ->
  setitem tbl 2 row = Ok (<[2%nat:=row]> tbl) /\ shape_3x4 (<[2%nat:=row]> tbl).
Proof.
  intros Hshape Hrow.
  destruct (shape_3x4_inv tbl Hshape)
    as (a0 & a1 & a2 & a3 & b0 & b1 & b2 & b3 & c0 & c1 & c2 & c3 & ->).
  split; [reflexivity|]. cbn. by apply shape_3x4_rows.
Qed.

Section TableShape.

Variables N_SAMPLES N_LOOP T_SLEEP : Z.

Lemma table_shaped_close : preserves table_shaped close.
Proof. unfold close. keeps. Qed.

Lemma table_shaped_on_sample :
  preserves table_shaped (on_sample N_SAMPLES N_LOOP T_SLEEP).
Proof. unfold on_sample. keeps. Qed.

Lemma table_shaped_on_mass (mass : mass_dict) :
  preserves table_shaped (on_mass N_SAMPLES N_LOOP T_SLEEP mass).
Proof. unfold on_mass. keeps. Qed.

Lemma table_shaped_on_read_data (data : list byte) :
  preserves table_shaped (on_read_data data).
Proof.
  unfold on_read_data.
  apply preserves_bind; [apply preserves_read|intros requested].
  apply preserves_bind; [keeps|intros payload].
  apply preserves_bind; [apply preserves_read|intros [length|]];
    [|apply preserves_raise].
  destruct (length =? 16); [|destruct (length <? 16); [|apply preserves_ret]].
  - apply preserves_update. intros s _.
    apply shape_3x4_rows; reflexivity.
  - intros s Hs. rewrite bind_read.
    destruct (setitem_shape (calibration s) (cal (slice 0 8 payload)) Hs
                (cal_length _)) as [-> Hset].
    rewrite bind_lift, bind_update.
    assert (preserves table_shaped
              (update (set_calibration_requested false) ≫= λ _, on_calibrated))
      as Hrest by keeps.
    apply Hrest. exact Hset.
Qed.

#[local] Hint Resolve table_shaped_on_read_data table_shaped_on_mass : preserved.

Lemma table_shaped_handle (data : list byte) :
  preserves table_shaped (handle N_SAMPLES N_LOOP T_SLEEP data).
Proof. unfold handle. keeps. Qed.

Lemma table_shaped_iterations (inbox : list (list byte)) :
  preserves table_shaped (iterations N_SAMPLES N_LOOP T_SLEEP inbox).
Proof.
  induction inbox as [|packet inbox IH]; cbn [iterations]; keeps.
  apply table_shaped_handle.
Qed.

Lemma table_shaped_loop (inbox : list (list byte)) :
  preserves table_shaped (loop N_SAMPLES N_LOOP T_SLEEP inbox).
Proof. unfold loop. keeps. apply table_shaped_iterations. Qed.

End TableShape.

(** *** The cells stay 16-bit values *)

Section Cells.

Variables N_SAMPLES N_LOOP T_SLEEP : Z.

Lemma cells_word16_on_read_data (data : list byte) :
  preserves cells_word16 (on_read_data data).
Proof.
  unfold on_read_data.
  apply preserves_bind; [apply preserves_read|intros requested].
  apply preserves_bind; [keeps|intros payload].
  apply preserves_bind; [apply preserves_read|intros [length|]];
    [|apply preserves_raise].
  destruct (length =? 16); [|destruct (length <? 16); [|apply preserves_ret]].
  - apply preserves_update. intros s _. unfold cells_word16.
    cbn [calibration set_calibration].
    constructor; [apply cal_word16|].
    constructor; [apply cal_word16|].
    repeat constructor; unfold word16, SENTINEL; lia.
  - intros s Hs. rewrite bind_read. unfold setitem.
    destruct (2 <? List.length (calibration s))%nat; rewrite bind_lift;
      [|exact Hs].
    rewrite bind_update.
    assert (preserves cells_word16
              (update (set_calibration_requested false) ≫= λ _, on_calibrated))
      as Hrest by keeps.
    apply Hrest. unfold cells_word16. cbn.
    apply Forall_insert; [exact Hs|apply cal_word16].
Qed.

Lemma cells_word16_on_mass (mass : mass_dict) :
  preserves cells_word16 (on_mass N_SAMPLES N_LOOP T_SLEEP mass).
Proof. unfold on_mass, on_sample. keeps. Qed.

#[local] Hint Resolve cells_word16_on_read_data cells_word16_on_mass : preserved.

Lemma cells_word16_handle (data : list byte) :
  preserves cells_word16 (handle N_SAMPLES N_LOOP T_SLEEP data).
Proof. unfold handle. keeps. Qed.

Lemma cells_word16_iterations (inbox : list (list byte)) :
  preserves cells_word16 (iterations N_SAMPLES N_LOOP T_SLEEP inbox).
Proof.
  induction inbox as [|packet inbox IH]; cbn [iterations]; keeps.
  apply cells_word16_handle.
Qed.

Lemma cells_word16_loop (inbox : list (list byte)) :
  preserves cells_word16 (loop N_SAMPLES N_LOOP T_SLEEP inbox).
Proof. unfold loop. keeps. apply cells_word16_iterations. Qed.

(** The table of the object is always one that [calc_mass] is proved on,
    through any packets. *)
Lemma table_ok_loop (inbox : list (list byte)) (s : Wiiboard) :
  table_ok (calibration s) ->
  table_ok (calibration (snd (loop N_SAMPLES N_LOOP T_SLEEP inbox s))).
Proof.
  intros [Hshape Hcells]. split.
  - by apply table_shaped_loop.
  - by apply cells_word16_loop.
Qed.

Lemma table_ok_new (nsamples : nat) : table_ok (calibration (new nsamples)).
Proof.
  split; [by apply shape_3x4_rows|].
  cbn. repeat constructor; unfold word16, SENTINEL; lia.
Qed.

End Cells.

(** *** A cleared request stays cleared *)

Section CalibrationDone.

Variables N_SAMPLES N_LOOP T_SLEEP : Z.

Lemma calibration_done_on_read_data (data : list byte) :
  preserves calibration_done (on_read_data data).
Proof. unfold on_read_data. keeps. Qed.

Lemma calibration_done_on_mass (mass : mass_dict) :
  preserves calibration_done (on_mass N_SAMPLES N_LOOP T_SLEEP mass).
Proof. unfold on_mass, on_sample. keeps. Qed.

#[local] Hint Resolve calibration_done_on_read_data calibration_done_on_mass
  : preserved.

Lemma calibration_done_handle (data : list byte) :
  preserves calibration_done (handle N_SAMPLES N_LOOP T_SLEEP data).
Proof. unfold handle. keeps. Qed.

Lemma calibration_done_iterations (inbox : list (list byte)) :
  preserves calibration_done (iterations N_SAMPLES N_LOOP T_SLEEP inbox).
Proof.
  induction inbox as [|packet inbox IH]; cbn [iterations]; keeps.
  apply calibration_done_handle.
Qed.

Lemma calibration_done_loop (inbox : list (list byte)) :
  preserves calibration_done (loop N_SAMPLES N_LOOP T_SLEEP inbox).
Proof. unfold loop. keeps. apply calibration_done_iterations. Qed.

End CalibrationDone.

(** *** The two fragments *)

Lemma fragment_length_range (d4 : byte) : 1 <= byte_val d4 / 16 + 1 <= 16.
Proof.
  pose proof (byte_val_range d4) as H.
  assert (0 <= byte_val d4 / 16 <= 15); [|lia].
  split; [apply Z.div_pos; lia|].
  apply Z.lt_succ_r. apply Z.div_lt_upper_bound; lia.
Qed.

Section Fragments.

Variables N_SAMPLES N_LOOP T_SLEEP : Z.

Lemma handle_read_data (data : list byte) (s : Wiiboard) :
  data !! 1%nat = Some x21 ->
  handle N_SAMPLES N_LOOP T_SLEEP data s = on_read_data data s.
Proof.
  intros H1. unfold handle. rewrite (length_ge_2 _ _ H1).
  rewrite bind_lift, (getitem_lookup _ _ _ H1). reflexivity.
Qed.

Lemma on_read_data_first (data : list byte) (d4 : byte) (s : Wiiboard) :
  calibration_requested s = true ->
  data !! 4%nat = Some d4 ->
  byte_val d4 / 16 + 1 = 16 ->
  let payload := slice 7 (7 + 16) data in
  on_read_data data s =
    (Ok tt,
     set_calibration
       [cal (slice 0 8 payload); cal (slice 8 16 payload); replicate 4 SENTINEL]
       (set_loop_length (Some 16) s)).
Proof.
  intros Hreq H4 Hlen payload. unfold on_read_data.
  rewrite bind_read, Hreq. rewrite bind_run, bind_lift.
  rewrite (getitem_lookup _ _ _ H4). rewrite bind_update.
  unfold b2i_int. rewrite Hlen. reflexivity.
Qed.

Lemma on_read_data_second (data : list byte) (d4 : byte) (s : Wiiboard) :
  table_shaped s ->
  calibration_requested s = true ->
  data !! 4%nat = Some d4 ->
  byte_val d4 / 16 + 1 < 16 ->
  let length := byte_val d4 / 16 + 1 in
  let payload := slice 7 (7 + Z.to_nat length) data in
  on_read_data data s =
    on_calibrated
      (set_calibration_requested false
         (set_calibration (<[2%nat:=cal (slice 0 8 payload)]> (calibration s))
            (set_loop_length (Some length) s))).
Proof.
  intros Hshape Hreq H4 Hlen length payload. unfold on_read_data.
  rewrite bind_read, Hreq. rewrite bind_run, bind_lift.
  rewrite (getitem_lookup _ _ _ H4). rewrite bind_update.
  unfold b2i_int. fold length. cbn [mret M_ret]. rewrite bind_read.
  cbn [loop_length set_loop_length].
  destruct (Z.eqb_spec length 16) as [E|_]; [lia|].
  destruct (Z.ltb_spec length 16) as [_|E]; [|lia].
  rewrite bind_read. cbn [calibration set_loop_length].
  destruct (setitem_shape (calibration s) (cal (slice 0 8 payload)) Hshape
              (cal_length _)) as [Hset _].
  fold payload. rewrite bind_lift, Hset. reflexivity.
Qed.

End Fragments.

(** C4. The calibration table is 3 by 4 when the object is built and after
    the loop has processed any packets; a cleared request flag stays
    cleared through any packets; a calibration packet that arrives with the
    flag set and announces sixteen bytes fills rows 0 and 1 with four
    values each and puts the sentinel row in row 2, and one that announces
    fewer fills row 2 with four values and clears the flag. *)
Theorem calibration_table_invariant (N_SAMPLES N_LOOP T_SLEEP : Z) :
  (forall nsamples, table_shaped (new nsamples)) /\
  (forall inbox s,
     table_shaped s ->
     table_shaped (snd (loop N_SAMPLES N_LOOP T_SLEEP inbox s))) /\
  (forall inbox s,
     calibration_done s ->
     calibration_done (snd (loop N_SAMPLES N_LOOP T_SLEEP inbox s))) /\
  (forall data d4 s,
     table_shaped s ->
     calibration_requested s = true ->
     data !! 1%nat = Some x21 ->
     data !! 4%nat = Some d4 ->
     let length := byte_val d4 / 16 + 1 in
     let payload := slice 7 (7 + Z.to_nat length) data in
     let s' := snd (handle N_SAMPLES N_LOOP T_SLEEP data s) in
     (length = 16 ->
      calibration s' =
        [cal (slice 0 8 payload); cal (slice 8 16 payload);
         replicate 4 SENTINEL]) /\
     (length <> 16 ->
      calibration s' = <[2%nat:=cal (slice 0 8 payload)]> (calibration s) /\
      calibration_done s')).
Proof.
  split; [|split; [|split]].
  - intros nsamples. by apply shape_3x4_rows.
  - intros inbox. apply table_shaped_loop.
  - intros inbox. apply calibration_done_loop.
  - intros data d4 s Hshape Hreq H1 H4 length payload s'. subst s'.
    rewrite handle_read_data by exact H1.
    split; intros Hlen.
    + subst payload. rewrite Hlen.
      by rewrite (on_read_data_first data d4 s Hreq H4 Hlen).
    + pose proof (fragment_length_range d4) as Hrange. fold length in Hrange.
      rewrite (on_read_data_second data d4 s Hshape Hreq H4) by (fold length; lia).
      fold length payload.
      match goal with
      | |- context [on_calibrated ?s0] =>
          assert (preserves
                    (fun s => calibration s = calibration s0 /\
                              calibration_done s) on_calibrated) as Hkeep
      end.
      { apply preserves_on_calibrated. intros ? ? ?. assumption. }
      apply Hkeep. split; reflexivity.
Qed.

Lemma calibration_table_invariant_witness :
  let N := Settings.N_SAMPLES in
  let L := Settings.N_LOOP in
  let T := Settings.T_SLEEP in
  table_shaped
    (snd (loop N L T [first_fragment; second_fragment] (snd (WiiboardPrint true 0)))) /\
  calibration_done (snd (loop N L T [second_fragment] (new 0))).
Proof.
  intros N L T.
  destruct (calibration_table_invariant N L T) as (Hnew & Hshape & Hdone & _).
  split.
  - apply Hshape. apply shape_3x4_rows; reflexivity.
  - apply Hdone. reflexivity.
Defined.

(** ** The sampling window *)

Lemma deque_append_length {A} (bound : nat) (x : A) (d : list A) :
  (List.length d <= bound)%nat ->
  (List.length (deque_append bound x d) <= bound)%nat.
Proof.
  intros Hd. unfold deque_append.
  destruct (Nat.eqb_spec bound 0) as [->|Hb]; [exact Hd|].
  destruct (Nat.ltb_spec (List.length d) bound) as [Hlt|Hge].
  - rewrite length_app. cbn. lia.
  - rewrite length_app, length_drop. cbn. lia.
Qed.

Lemma deque_append_room {A} (bound : nat) (x : A) (d : list A) :
  (List.length d < bound)%nat -> deque_append bound x d = d ++ [x].
Proof.
  intros Hd. unfold deque_append.
  destruct (Nat.eqb_spec bound 0) as [->|Hb]; [lia|].
  destruct (Nat.ltb_spec (List.length d) bound) as [Hlt|Hge]; [reflexivity|lia].
Qed.

Section Window.

Variables N_SAMPLES N_LOOP T_SLEEP : Z.

Lemma maxlen_handle (bound : nat) (data : list byte) :
  preserves (fun s => maxlen s = bound) (handle N_SAMPLES N_LOOP T_SLEEP data).
Proof. unfold handle, on_read_data, on_mass, on_sample. keeps. Qed.

(** After [on_sample] the window is empty if it was full, and is as it was
    otherwise; the bound stays. *)
Lemma on_sample_window (s : Wiiboard) :
  let s' := snd (on_sample N_SAMPLES N_LOOP T_SLEEP s) in
  maxlen s' = maxlen s /\
  samples s' =
    if Z.of_nat (List.length (samples s)) =? N_SAMPLES then [] else samples s.
Proof.
  unfold on_sample. rewrite bind_read.
  destruct (Z.of_nat (List.length (samples s)) =? N_SAMPLES); [|by split].
  rewrite bind_log, bind_update.
  match goal with
  | |- context [snd (?m ?s0)] =>
      assert (preserves (fun s' => maxlen s' = maxlen s /\ samples s' = []) m)
        as Hkeep by keeps;
      apply (Hkeep s0)
  end.
  by split.
Qed.

Lemma on_mass_window (mass : mass_dict) (s : Wiiboard) :
  let pushed := deque_append (maxlen s) mass (samples s) in
  let s' := snd (on_mass N_SAMPLES N_LOOP T_SLEEP mass s) in
  maxlen s' = maxlen s /\
  samples s' =
    if Z.of_nat (List.length pushed) =? N_SAMPLES then [] else pushed.
Proof.
  unfold on_mass. rewrite !bind_read, bind_update.
  apply (on_sample_window (set_samples _ s)).
Qed.

Lemma window_bounded_on_mass (mass : mass_dict) :
  preserves window_bounded (on_mass N_SAMPLES N_LOOP T_SLEEP mass).
Proof.
  intros s Hs. unfold window_bounded in *.
  destruct (on_mass_window mass s) as [-> ->].
  destruct (_ =? _); [cbn; lia|]. by apply deque_append_length.
Qed.

Lemma window_open_on_mass (mass : mass_dict) :
  preserves (window_open N_SAMPLES) (on_mass N_SAMPLES N_LOOP T_SLEEP mass).
Proof.
  intros s [Hmax Hlen]. unfold window_open.
  destruct (on_mass_window mass s) as [-> ->]. split; [exact Hmax|].
  rewrite deque_append_room by lia.
  destruct (Z.eqb_spec (Z.of_nat (List.length (samples s ++ [mass]))) N_SAMPLES)
    as [E|E]; [cbn; lia|].
  rewrite length_app in *. cbn in *. lia.
Qed.

#[local] Hint Resolve window_bounded_on_mass window_open_on_mass : preserved.

Lemma window_bounded_handle (data : list byte) :
  preserves window_bounded (handle N_SAMPLES N_LOOP T_SLEEP data).
Proof. unfold handle, on_read_data. keeps. Qed.

Lemma window_open_handle (data : list byte) :
  preserves (window_open N_SAMPLES) (handle N_SAMPLES N_LOOP T_SLEEP data).
Proof. unfold handle, on_read_data. keeps. Qed.

Lemma window_bounded_iterations (inbox : list (list byte)) :
  preserves window_bounded (iterations N_SAMPLES N_LOOP T_SLEEP inbox).
Proof.
  induction inbox as [|packet inbox IH]; cbn [iterations]; keeps.
  apply window_bounded_handle.
Qed.

Lemma window_bounded_loop (inbox : list (list byte)) :
  preserves window_bounded (loop N_SAMPLES N_LOOP T_SLEEP inbox).
Proof. unfold loop. keeps. apply window_bounded_iterations. Qed.

Lemma window_open_iterations (inbox : list (list byte)) :
  preserves (window_open N_SAMPLES) (iterations N_SAMPLES N_LOOP T_SLEEP inbox).
Proof.
  induction inbox as [|packet inbox IH]; cbn [iterations]; keeps.
  apply window_open_handle.
Qed.

Lemma window_open_loop (inbox : list (list byte)) :
  preserves (window_open N_SAMPLES) (loop N_SAMPLES N_LOOP T_SLEEP inbox).
Proof. unfold loop. keeps. apply window_open_iterations. Qed.

End Window.

(** C5. With a positive sample count [N_SAMPLES] and the window bounded by
    it, as the constructor bounds it: a push on a window that is not full
    appends the sample, and if that makes [N_SAMPLES] samples the window is
    empty when the push is over, so that the window is again not full;
    the loop keeps the window below [N_SAMPLES] through any packets; and
    for any bound the window never holds more samples than the bound. *)
Theorem sampling_window_bounded (N_SAMPLES N_LOOP T_SLEEP : Z) :
  0 < N_SAMPLES ->
  (forall mass s,
     window_open N_SAMPLES s ->
     let pushed := samples s ++ [mass] in
     let s' := snd (on_mass N_SAMPLES N_LOOP T_SLEEP mass s) in
     samples s' =
       (if Z.of_nat (List.length pushed) =? N_SAMPLES then [] else pushed) /\
     Z.of_nat (List.length (samples s')) < N_SAMPLES) /\
  (forall inbox s,
     window_open N_SAMPLES s ->
     window_open N_SAMPLES (snd (loop N_SAMPLES N_LOOP T_SLEEP inbox s))) /\
  (forall inbox s,
     window_bounded s ->
     window_bounded (snd (loop N_SAMPLES N_LOOP T_SLEEP inbox s))) /\
  window_open N_SAMPLES (new (Z.to_nat N_SAMPLES)).
Proof.
  intros HN. split; [|split; [|split]].
  - intros mass s Hopen pushed s'. split.
    + destruct Hopen as [Hmax Hlen]. subst s' pushed.
      destruct (on_mass_window N_SAMPLES N_LOOP T_SLEEP mass s) as [_ ->].
      by rewrite deque_append_room by lia.
    + apply (window_open_on_mass N_SAMPLES N_LOOP T_SLEEP mass s Hopen).
  - intros inbox. apply window_open_loop.
  - intros inbox. apply window_bounded_loop.
  - split; [reflexivity|]. cbn. lia.
Qed.

Lemma sampling_window_bounded_witness :
  let mass := MassDict PyFloat.zero PyFloat.zero PyFloat.zero PyFloat.zero in
  let one := snd (loop 2 1 2 [sample_packet_150] (calibrated_board 2)) in
  let three :=
    snd (loop 2 1 2 (replicate 3 sample_packet_150) (calibrated_board 2)) in
  (List.length (samples one) = 1%nat /\
   samples (snd (on_mass 2 1 2 mass one)) = [] /\
   nloop (snd (on_mass 2 1 2 mass one)) = nloop one + 1) /\
  (List.length (samples three) = 1%nat /\ nloop three = 1 /\
   window_open 2 three /\ window_bounded three).
Proof.
  intros mass one three.
  destruct (sampling_window_bounded 2 1 2 ltac:(lia))
    as (Hpush & Hloop & Hbound & _).
  assert (window_open 2 (calibrated_board 2)) as Hopen.
  { split; [vm_compute; reflexivity|vm_compute; reflexivity]. }
  assert (window_bounded (calibrated_board 2)) as Hbounded.
  { unfold window_bounded. vm_compute. lia. }
  split; [split; [|split]|split; [|split; [|split]]].
  - vm_compute. reflexivity.
  - exact (proj1 (Hpush mass one (Hloop [sample_packet_150] _ Hopen))).
  - vm_compute. reflexivity.
  - vm_compute. reflexivity.
  - vm_compute. reflexivity.
  - exact (Hloop (replicate 3 sample_packet_150) _ Hopen).
  - exact (Hbound (replicate 3 sample_packet_150) _ Hbounded).
Defined.

(** ** The session *)

Lemma close_run (s : Wiiboard) : close s = (Ok tt, closed s).
Proof. reflexivity. Qed.

Lemma send_run (data : list (list byte)) (s : Wiiboard) :
  controlsocket s = Connected ->
  send data s = (Ok tt, emit (Sent (x52 :: concat data)) s).
Proof. intros H. unfold send, controlsocket_send. by rewrite H. Qed.

Lemma get_mass_run (data : list byte) (s : Wiiboard) :
  csv_writer s = true -> csv_file s = true ->
  get_mass data s =
    match weigh (calibration s) data with
    | Ok mass =>
        (Ok mass,
         emit (WriteRow [top_right mass; bottom_right mass;
                         top_left mass; bottom_left mass]) s)
    | Raise e => (Raise e, s)
    end.
Proof.
  intros Hw Hf. unfold get_mass, weigh. rewrite bind_read.
  destruct (calc_mass (calibration s) (b2i (slice 0 2 data)) TOP_RIGHT) as [TR|e];
    rewrite bind_lift; [|reflexivity].
  destruct (calc_mass (calibration s) (b2i (slice 2 4 data)) BOTTOM_RIGHT) as [BR|e];
    rewrite bind_lift; [|reflexivity].
  destruct (calc_mass (calibration s) (b2i (slice 4 6 data)) TOP_LEFT) as [TL|e];
    rewrite bind_lift; [|reflexivity].
  destruct (calc_mass (calibration s) (b2i (slice 6 8 data)) BOTTOM_LEFT) as [BL|e];
    rewrite bind_lift; [|reflexivity].
  rewrite bind_run. unfold writerow. rewrite Hw, Hf. reflexivity.
Qed.

Section Epochs.

Variables N_SAMPLES N_LOOP T_SLEEP : Z.

Lemma on_sample_run (s : Wiiboard) :
  controlsocket s = Connected ->
  on_sample N_SAMPLES N_LOOP T_SLEEP s =
    (Ok tt,
     if Z.of_nat (List.length (samples s)) =? N_SAMPLES then
       if nloop s + 1 >? N_LOOP then closed (epoch_counted s)
       else emit (Slept T_SLEEP) (emit (Sent frame_light_off) (epoch_counted s))
     else s).
Proof.
  intros Hc. unfold on_sample. rewrite bind_read.
  destruct (_ =? N_SAMPLES); [|reflexivity].
  rewrite bind_log, bind_update, bind_run.
  unfold status. rewrite send_run by exact Hc.
  rewrite bind_read, bind_update, bind_read.
  change ((if nloop s + 1 >? N_LOOP
           then close
           else light false ≫= λ _, update (emit (Slept T_SLEEP)))
            (epoch_counted s) = (Ok tt,
     if nloop s + 1 >? N_LOOP then closed (epoch_counted s)
     else emit (Slept T_SLEEP) (emit (Sent frame_light_off) (epoch_counted s)))).
  destruct (nloop s + 1 >? N_LOOP); [apply close_run|].
  rewrite bind_run. unfold light. rewrite send_run by exact Hc. reflexivity.
Qed.

Lemma iterations_stopped (inbox : list (list byte)) (s : Wiiboard) :
  running s = false -> iterations N_SAMPLES N_LOOP T_SLEEP inbox s = (Ok tt, s).
Proof.
  intros H. destruct inbox as [|packet inbox]; [reflexivity|].
  cbn [iterations]. rewrite bind_read, H. reflexivity.
Qed.

Lemma handle_sample (tbl : list (list Z)) (packet : list byte) (s : Wiiboard) :
  0 < N_SAMPLES ->
  sampling N_SAMPLES N_LOOP tbl s ->
  sample_packet tbl packet ->
  exists s',
    handle N_SAMPLES N_LOOP T_SLEEP (take 25 packet) s = (Ok tt, s') /\
    progress N_SAMPLES s' = progress N_SAMPLES s + 1 /\
    if progress N_SAMPLES s + 1 =? N_SAMPLES * (N_LOOP + 1)
    then terminated N_LOOP s'
    else sampling N_SAMPLES N_LOOP tbl s'.
Proof.
  intros HN (Hrun & Hctl & Hrcv & Hw & Hf & Htbl & [Hmax Hlen] & Hk)
    [H1 [mass Hmass]].
  unfold handle. rewrite (length_ge_2 _ _ H1).
  rewrite bind_lift, (getitem_lookup _ _ _ H1).
  change (byte_val x32 =? ord INPUT_STATUS) with false.
  change (byte_val x32 =? ord INPUT_READ_DATA) with false.
  change (byte_val x32 =? ord EXTENSION_8BYTES) with true.
  cbn match. rewrite bind_run, check_button_run.
  set (s1 := if _ =? BUTTON_DOWN_MASK then _ else _).
  assert (running s1 = running s /\ controlsocket s1 = controlsocket s /\
          receivesocket s1 = receivesocket s /\ csv_writer s1 = csv_writer s /\
          csv_file s1 = csv_file s /\ calibration s1 = calibration s /\
          maxlen s1 = maxlen s /\ samples s1 = samples s /\ nloop s1 = nloop s)
    as (E1 & E2 & E3 & E4 & E5 & E6 & E7 & E8 & E9).
  { subst s1. destruct (_ =? BUTTON_DOWN_MASK), (button_down s); by repeat split. }
  clearbody s1.
  rewrite bind_run, get_mass_run by congruence.
  rewrite E6, Htbl, Hmass.
  set (s2 := emit _ s1).
  unfold on_mass. rewrite !bind_read, bind_update.
  rewrite on_sample_run by (subst s2; cbn; congruence).
  eexists. split; [reflexivity|].
  subst s2. cbn [samples set_samples emit maxlen nloop].
  rewrite E7, E8, Hmax. rewrite deque_append_room by lia.
  unfold progress, terminated, sampling, window_open.
  rewrite length_app. cbn [List.length].
  destruct (Z.eqb_spec (Z.of_nat (List.length (samples s) + 1)) N_SAMPLES)
    as [Hfull|Hroom];
    [destruct (Z.gtb_spec (nloop s1 + 1) N_LOOP) as [Hlast|Hmore]|];
    cbn; rewrite ?length_app; cbn [List.length];
    rewrite ?E1, ?E2, ?E3, ?E4, ?E5, ?E6, ?E7, ?E8, ?E9 in *;
    (split; [lia|]);
    destruct (Z.eqb_spec
                (Z.of_nat (List.length (samples s)) + N_SAMPLES * nloop s + 1)
                (N_SAMPLES * (N_LOOP + 1))) as [Hend|Hnot];
    try nia; repeat split; try assumption; try lia.
Qed.

End Epochs.

Section SessionRun.

Variables N_SAMPLES N_LOOP T_SLEEP : Z.
Hypothesis N_SAMPLES_pos : 0 < N_SAMPLES.

Lemma sampling_progress (tbl : list (list Z)) (s : Wiiboard) :
  sampling N_SAMPLES N_LOOP tbl s ->
  0 <= progress N_SAMPLES s < N_SAMPLES * (N_LOOP + 1).
Proof.
  intros (_ & _ & _ & _ & _ & _ & [_ Hlen] & Hk). unfold progress. nia.
Qed.

Lemma iterations_samples (tbl : list (list Z)) (inbox : list (list byte)) :
  Forall (sample_packet tbl) inbox ->
  forall s,
    sampling N_SAMPLES N_LOOP tbl s ->
    exists s',
      iterations N_SAMPLES N_LOOP T_SLEEP inbox s = (Ok tt, s') /\
      if progress N_SAMPLES s + Z.of_nat (List.length inbox)
           <? N_SAMPLES * (N_LOOP + 1)
      then sampling N_SAMPLES N_LOOP tbl s' /\
           progress N_SAMPLES s' =
             progress N_SAMPLES s + Z.of_nat (List.length inbox)
      else terminated N_LOOP s'.
Proof.
  induction 1 as [|packet inbox Hpacket _ IH]; intros s Hs.
  - exists s. split; [reflexivity|].
    pose proof (sampling_progress tbl s Hs) as Hp. cbn [List.length].
    destruct (Z.ltb_spec (progress N_SAMPLES s + Z.of_nat 0)
                (N_SAMPLES * (N_LOOP + 1))); [|lia].
    split; [exact Hs|lia].
  - pose proof (sampling_progress tbl s Hs) as Hp.
    pose proof Hs as (Hrun & _ & Hrcv & _).
    destruct (handle_sample N_SAMPLES N_LOOP T_SLEEP tbl packet s
                N_SAMPLES_pos Hs Hpacket) as (s1 & Hstep & Hprog & Hnext).
    cbn [iterations]. rewrite bind_read, Hrun. rewrite bind_run.
    unfold recv at 1. rewrite Hrcv. rewrite bind_run, Hstep.
    cbn [List.length]. rewrite Nat2Z.inj_succ.
    destruct (Z.eqb_spec (progress N_SAMPLES s + 1) (N_SAMPLES * (N_LOOP + 1)))
      as [Hend|Hmore].
    + exists s1. pose proof Hnext as (Hstop & _).
      split; [by apply iterations_stopped|].
      destruct (Z.ltb_spec (progress N_SAMPLES s + Z.succ (Z.of_nat (List.length inbox)))
                  (N_SAMPLES * (N_LOOP + 1))); [lia|exact Hnext].
    + destruct (IH s1 Hnext) as (s' & Hloop & Hfinal).
      exists s'. split; [exact Hloop|].
      rewrite Hprog in Hfinal.
      replace (progress N_SAMPLES s + Z.succ (Z.of_nat (List.length inbox)))
        with (progress N_SAMPLES s + 1 + Z.of_nat (List.length inbox)) by lia.
      destruct (_ <? _); [|exact Hfinal].
      destruct Hfinal as [Hsamp ->]. split; [exact Hsamp|lia].
Qed.

Lemma loop_samples (tbl : list (list Z)) (inbox : list (list byte)) :
  Forall (sample_packet tbl) inbox ->
  forall s,
    sampling N_SAMPLES N_LOOP tbl s ->
    exists s',
      loop N_SAMPLES N_LOOP T_SLEEP inbox s = (Ok tt, s') /\
      if progress N_SAMPLES s + Z.of_nat (List.length inbox)
           <? N_SAMPLES * (N_LOOP + 1)
      then sampling N_SAMPLES N_LOOP tbl s' /\
           progress N_SAMPLES s' =
             progress N_SAMPLES s + Z.of_nat (List.length inbox)
      else terminated N_LOOP s'.
Proof.
  intros Hinbox s Hs. unfold loop. rewrite bind_update.
  apply (iterations_samples tbl inbox Hinbox (set_loop_length None s) Hs).
Qed.

End SessionRun.

(** C6. With a positive sample count and a maximum of [N_LOOP >= 0]
    epochs: when the window is full, [on_sample] clears it, requests the
    status and counts the epoch, and then, if the count is above [N_LOOP],
    closes (the running flag is cleared and both channels are closed), and
    otherwise turns the light off and sleeps; and a session that starts
    with an empty window and no epoch, fed sample packets, still runs with
    every sample accounted for while fewer than [N_SAMPLES * (N_LOOP + 1)]
    samples have come, and is stopped with exactly [N_LOOP + 1] epochs
    counted and both channels closed from then on. *)
Theorem session_terminates_after_epochs (N_SAMPLES N_LOOP T_SLEEP : Z) :
  0 < N_SAMPLES -> 0 <= N_LOOP ->
  (forall s,
     controlsocket s = Connected ->
     Z.of_nat (List.length (samples s)) = N_SAMPLES ->
     on_sample N_SAMPLES N_LOOP T_SLEEP s =
       (Ok tt,
        if nloop s + 1 >? N_LOOP then closed (epoch_counted s)
        else emit (Slept T_SLEEP) (emit (Sent frame_light_off) (epoch_counted s)))) /\
  (forall s,
     nloop (epoch_counted s) = nloop s + 1 /\
     samples (epoch_counted s) = [] /\
     running (closed s) = false /\
     controlsocket (closed s) = Closed /\ receivesocket (closed s) = Closed) /\
  (forall tbl inbox s,
     Forall (sample_packet tbl) inbox ->
     sampling N_SAMPLES N_LOOP tbl s ->
     samples s = [] -> nloop s = 0 ->
     let s' := snd (loop N_SAMPLES N_LOOP T_SLEEP inbox s) in
     let taken := Z.of_nat (List.length inbox) in
     fst (loop N_SAMPLES N_LOOP T_SLEEP inbox s) = Ok tt /\
     (taken < N_SAMPLES * (N_LOOP + 1) ->
      running s' = true /\ nloop s' <= N_LOOP /\
      Z.of_nat (List.length (samples s')) + N_SAMPLES * nloop s' = taken) /\
     (N_SAMPLES * (N_LOOP + 1) <= taken ->
      running s' = false /\ nloop s' = N_LOOP + 1 /\
      controlsocket s' = Closed /\ receivesocket s' = Closed)).
Proof.
  intros HN HL. split; [|split].
  - intros s Hc Hfull. rewrite on_sample_run by exact Hc.
    apply Z.eqb_eq in Hfull. by rewrite Hfull.
  - intros s. by repeat split.
  - intros tbl inbox s Hinbox Hs Hempty Hzero s' taken. subst s' taken.
    destruct (loop_samples N_SAMPLES N_LOOP T_SLEEP HN tbl inbox Hinbox s Hs)
      as (s' & -> & Hfinal).
    assert (progress N_SAMPLES s = 0) as Hp.
    { unfold progress. rewrite Hempty, Hzero. cbn. lia. }
    rewrite Hp in Hfinal. cbn [fst snd].
    split; [reflexivity|]. split; intros Htaken.
    + destruct (Z.ltb_spec (0 + Z.of_nat (List.length inbox))
                  (N_SAMPLES * (N_LOOP + 1))); [|lia].
      destruct Hfinal as [(Hrun & _ & _ & _ & _ & _ & _ & Hk) Hprog].
      unfold progress in Hprog. repeat split; [exact Hrun|lia|lia].
    + destruct (Z.ltb_spec (0 + Z.of_nat (List.length inbox))
                  (N_SAMPLES * (N_LOOP + 1))); [lia|].
      destruct Hfinal as (Hrun & Hc & Hr & _ & Hk). by repeat split.
Qed.

Lemma calibrated_sampling :
  sampling 2 1 [[100; 100; 100; 100]; [200; 200; 200; 200]; [300; 300; 300; 300]]
    (calibrated_board 2).
Proof. repeat split; vm_compute; try reflexivity; discriminate. Qed.

Lemma sample_packet_150_ok :
  sample_packet [[100; 100; 100; 100]; [200; 200; 200; 200]; [300; 300; 300; 300]]
    sample_packet_150.
Proof. split; [reflexivity|]. eexists. vm_compute. reflexivity. Qed.

Lemma session_terminates_after_epochs_witness :
  let s' := snd (loop 2 1 2 (replicate 4 sample_packet_150) (calibrated_board 2)) in
  running s' = false /\ nloop s' = 1 + 1 /\
  controlsocket s' = Closed /\ receivesocket s' = Closed.
Proof.
  destruct (session_terminates_after_epochs 2 1 2 ltac:(lia) ltac:(lia))
    as (_ & _ & Hrun).
  destruct (Hrun _ (replicate 4 sample_packet_150) (calibrated_board 2)
              ltac:(repeat constructor; apply sample_packet_150_ok)
              calibrated_sampling ltac:(reflexivity) ltac:(reflexivity))
    as (_ & _ & Hstop).
  apply Hstop. vm_compute. discriminate.
Defined.

(** ** The status packet *)

Lemma battery_field_bytes (data : list byte) (hi lo : byte) :
  data !! 7%nat = Some hi -> data !! 8%nat = Some lo ->
  b2i (slice 7 9 data) = byte_val hi * 256 + byte_val lo.
Proof.
  intros H7 H8.
  do 8 (destruct data as [|? data]; [discriminate|]).
  cbn in H7, H8. injection H7 as ->.
  destruct data as [|? data]; [discriminate|]. injection H8 as ->.
  reflexivity.
Qed.

Lemma battery_check_all : all_from (Z.to_nat 512) 0 battery_check = true.
Proof. vm_compute. reflexivity. Qed.

Lemma battery_level_range (f : Z) :
  word16 f ->
  let level := PyFloat.div (PyFloat.of_Z f) BATTERY_MAX in
  PyFloat.leb PyFloat.zero level = true /\
  (PyFloat.leb level PyFloat.one = true <-> f <= 200).
Proof.
  intros Hf level. unfold word16 in Hf.
  destruct (Z.lt_ge_cases f 512) as [Hsmall|Hbig].
  - assert (battery_check f = true) as H.
    { apply (all_from_spec battery_check _ 0 battery_check_all).
      rewrite Z2Nat.id; lia. }
    apply andb_true_iff in H as [Hpos Hone]. fold level in Hpos, Hone.
    apply Bool.eqb_prop in Hone. split; [exact Hpos|].
    rewrite Hone. apply Z.leb_le.
  - destruct (of_Z_positive f ltac:(lia)) as (m & e & Hfloat & Hdigits & Hexp).
    specialize (Hexp Hbig). subst level. rewrite Hfloat. unfold BATTERY_MAX.
    destruct (div_normal m 7036874417766400 e (-45) Hdigits
                ltac:(reflexivity)
                ltac:(unfold emin, PyFloat.prec, PyFloat.emax; lia))
      as [(m' & e' & -> & He')| ->].
    + split; [reflexivity|].
      unfold PyFloat.leb, SFleb, SFcompare, PyFloat.one.
      destruct (Z.compare_spec e' (-52)) as [?|?|_]; [lia|lia|].
      split; [discriminate|lia].
    + split; [reflexivity|]. split; [discriminate|lia].
Qed.

Section Status.

Variables N_SAMPLES N_LOOP T_SLEEP : Z.

Lemma handle_status_battery (data : list byte) (s : Wiiboard) :
  data !! 1%nat = Some x20 ->
  battery (snd (handle N_SAMPLES N_LOOP T_SLEEP data s)) =
    PyFloat.div (PyFloat.of_Z (b2i (slice 7 9 data))) BATTERY_MAX.
Proof.
  intros H1. unfold handle. rewrite (length_ge_2 _ _ H1).
  rewrite bind_lift, (getitem_lookup _ _ _ H1).
  change (byte_val x20 =? ord INPUT_STATUS) with true. cbn match.
  pose proof (b2i_word16 (slice 7 9 data) (slice_length 7 9 data)) as Hf.
  unfold truediv. rewrite float_of_int_16 by (unfold word16 in Hf; lia).
  cbn [mbind result_bind]. change (PyFloat.is_zero BATTERY_MAX) with false.
  cbn match. rewrite bind_lift, bind_update.
  match goal with
  | |- battery (snd (?m (set_battery ?b s))) = _ =>
      assert (preserves (fun s' => battery s' = b) m) as Hkeep by keeps;
      apply (Hkeep (set_battery b s))
  end.
  reflexivity.
Qed.

End Status.

(** C7 (as amended). For every status packet, whatever else the handler
    does, it sets the battery level to the field read at bytes 7 and 8
    (big-endian, 16 bits) divided by [BATTERY_MAX] = 200.0; the level is
    never negative, it is at most 1.0 exactly when the field is at most
    200, and a field of 100 gives 0.5. *)
Theorem status_battery_level
  (N_SAMPLES N_LOOP T_SLEEP : Z) (data : list byte) (s : Wiiboard) :
  data !! 1%nat = Some x20 ->
  let field := b2i (slice 7 9 data) in
  let s' := snd (handle N_SAMPLES N_LOOP T_SLEEP data s) in
  battery s' = PyFloat.div (PyFloat.of_Z field) BATTERY_MAX /\
  (forall hi lo,
     data !! 7%nat = Some hi -> data !! 8%nat = Some lo ->
     field = byte_val hi * 256 + byte_val lo) /\
  PyFloat.leb PyFloat.zero (battery s') = true /\
  (PyFloat.leb (battery s') PyFloat.one = true <-> field <= 200) /\
  (field = 100 -> battery s' = PyFloat.half).
Proof.
  intros H1 field s'. subst s'.
  rewrite handle_status_battery by exact H1. fold field.
  pose proof (b2i_word16 (slice 7 9 data) (slice_length 7 9 data)) as Hf.
  fold field in Hf.
  destruct (battery_level_range field Hf) as [Hpos Hone].
  split; [reflexivity|]. split; [apply battery_field_bytes|].
  split; [exact Hpos|]. split; [exact Hone|].
  intros ->. reflexivity.
Qed.

Lemma status_battery_level_witness :
  let s' :=
    snd (handle Settings.N_SAMPLES Settings.N_LOOP Settings.T_SLEEP
           (status_packet x00 x64) (calibrated_board 0)) in
  battery s' = PyFloat.half.
Proof.
  destruct (status_battery_level Settings.N_SAMPLES Settings.N_LOOP
              Settings.T_SLEEP (status_packet x00 x64) (calibrated_board 0)
              ltac:(reflexivity)) as (_ & _ & _ & _ & Hhalf).
  apply Hhalf. reflexivity.
Defined.

(** C7 (as stated) fails: a status packet whose battery field is 65535
    sets the level to 327.675, which is not at most 1.0. *)
Lemma battery_level_above_one :
  let s' :=
    snd (handle Settings.N_SAMPLES Settings.N_LOOP Settings.T_SLEEP
           (status_packet xff xff) (calibrated_board 0)) in
  b2i (slice 7 9 (status_packet xff xff)) = 65535 /\
  battery s' = PyFloat.div (PyFloat.of_Z 65535) BATTERY_MAX /\
  PyFloat.leb (battery s') PyFloat.one = false /\
  PyFloat.ltb (PyFloat.of_Z 327) (battery s') = true.
Proof. vm_compute. by repeat split. Qed.

(** ** The handshake *)

(** C3. [connect] on a new object sends three frames: the read of the
    calibration registers, the write that arms the extension, and the
    light-off command; the status request is not among them. *)
Theorem connect_sends_no_status_request (nsamples : nat) :
  let r := connect (new nsamples) in
  fst r = Ok tt /\
  calibration_requested (snd r) = true /\
  sent_frames (trace (snd r)) =
    [frame_read_calibration; frame_arm_extension; frame_light_off] /\
  ~ In frame_request_status (sent_frames (trace (snd r))).
Proof.
  cbn. repeat split. intros [H|[H|[H|[]]]]; discriminate H.
Qed.

(** ** A calibration packet after the calibration *)

(** C2. On the object of the main program the two calibration fragments
    leave the request flag clear; a further calibration packet in the same
    loop is processed all the same: it overwrites row 2 of the table with
    the first eight bytes of the packet as received, header included, and
    the calibration callback runs again. *)
Theorem late_calibration_packet_is_processed :
  let N := Settings.N_SAMPLES in
  let L := Settings.N_LOOP in
  let T := Settings.T_SLEEP in
  let board := set_csv_writer true (snd (WiiboardPrint true (Z.to_nat N))) in
  let s := snd (loop N L T [first_fragment; second_fragment] board) in
  let r := loop N L T [first_fragment; second_fragment; second_fragment] board in
  calibration_requested s = false /\
  calibration s =
    [[100; 100; 100; 100]; [200; 200; 200; 200]; [300; 300; 300; 300]] /\
  fst r = Ok tt /\
  calibration (snd r) =
    [[100; 100; 100; 100]; [200; 200; 200; 200]; [41249; 0; 28672; 13313]] /\
  trace (snd r) =
    trace s ++ [Logged LogCalibrated; Logged PrintMeasurement; Sent frame_light_on].
Proof. vm_compute. by repeat split. Qed.

(** When [loop] is entered with the flag clear, its [length] is unbound,
    and a calibration packet ends it with an exception. *)
Lemma early_calibration_packet_raises (nsamples : nat) :
  fst (loop Settings.N_SAMPLES Settings.N_LOOP Settings.T_SLEEP
         [second_fragment] (calibrated_board nsamples))
    = Raise UnboundLocalError.
Proof. reflexivity. Qed.

(** * Further properties of the driver *)

(** ** Decoding bytes *)

Lemma from_bytes_big_acc (b : list byte) (acc : Z) :
  fold_left (fun acc x => acc * 256 + byte_val x) b acc
  = acc * 256 ^ Z.of_nat (List.length b) + from_bytes_big b.
Proof.
  unfold from_bytes_big. revert acc.
  induction b as [|x b IH]; intros acc; cbn [fold_left List.length].
  - cbn. lia.
  - rewrite IH. rewrite (IH (0 * 256 + byte_val x)).
    rewrite Nat2Z.inj_succ, Z.pow_succ_r by lia. lia.
Qed.

(** X1. [b2i] reads its bytes big-endian: the bytes in front weigh 256 to
    the number of bytes behind them, and what the bytes behind encode is
    below that weight; no byte string makes it fail. *)
Theorem b2i_big_endian (hi lo : list byte) :
  b2i (hi ++ lo) = b2i hi * 256 ^ Z.of_nat (List.length lo) + b2i lo /\
  0 <= b2i lo < 256 ^ Z.of_nat (List.length lo).
Proof.
  split.
  - unfold b2i. unfold from_bytes_big at 1. rewrite fold_left_app.
    fold (from_bytes_big hi). apply from_bytes_big_acc.
  - unfold b2i. induction lo as [|x lo IH] using rev_ind.
    + cbn. lia.
    + unfold from_bytes_big in *. rewrite fold_left_app. cbn [fold_left].
      rewrite length_app, Nat2Z.inj_add. cbn [List.length].
      rewrite Z.pow_add_r by lia. pose proof (byte_val_range x).
      change (256 ^ Z.of_nat 1) with 256. nia.
Qed.

(** X2. [cal] never fails and looks at the first eight bytes only:
    whatever the length of its argument it returns four 16-bit values,
    the big-endian pairs of the first eight bytes when there are that
    many. *)
Theorem cal_reads_eight_bytes
  (d : list byte) (b0 b1 b2 b3 b4 b5 b6 b7 : byte) (rest : list byte) :
  cal d = cal (take 8 d) /\
  List.length (cal d) = 4%nat /\ Forall word16 (cal d) /\
  cal ([b0; b1; b2; b3; b4; b5; b6; b7] ++ rest) =
    [byte_val b0 * 256 + byte_val b1; byte_val b2 * 256 + byte_val b3;
     byte_val b4 * 256 + byte_val b5; byte_val b6 * 256 + byte_val b7].
Proof.
  split; [|split; [|split]].
  - do 8 (destruct d as [|? d]; [reflexivity|]). reflexivity.
  - apply cal_length.
  - apply cal_word16.
  - reflexivity.
Qed.

(** ** When [calc_mass] raises *)

Lemma quotient_defined (n d : Z) :
  d <> 0 -> exists q, Rule.quotient n d = Ok q.
Proof.
  intros Hd. unfold Rule.quotient.
  destruct (Z.eqb_spec d 0); [contradiction|]. by eexists.
Qed.

(** X3. On a 3x4 table of 16-bit cells [calc_mass] raises
    [ZeroDivisionError] exactly when the reading is at least the 0 kg and
    the 17 kg reference and the 34 kg reference equals the 17 kg one;
    in every other case it returns a weight. *)
Theorem calc_mass_raises (tbl : list (list Z)) (raw : Z) (pos : nat) :
  table_ok tbl -> (pos < 4)%nat -> word16 raw ->
  let '(c0, c1, c2) := column tbl pos in
  if (c0 <=? raw) && (c1 <=? raw) && (c2 =? c1)
  then calc_mass tbl raw pos = Raise ZeroDivisionError
  else exists mass, calc_mass tbl raw pos = Ok mass.
Proof.
  intros Hok Hpos Hraw. pose proof Hok as [Hshape _].
  pose proof (cell_word16 tbl 0 pos Hok ltac:(lia) Hpos) as H0.
  pose proof (cell_word16 tbl 1 pos Hok ltac:(lia) Hpos) as H1.
  pose proof (cell_word16 tbl 2 pos Hok ltac:(lia) Hpos) as H2.
  rewrite calc_mass_column by assumption. unfold column.
  set (c0 := nth pos (nth 0 tbl []) 0) in *.
  set (c1 := nth pos (nth 1 tbl []) 0) in *.
  set (c2 := nth pos (nth 2 tbl []) 0) in *.
  destruct (Z.ltb_spec raw c0) as [Hlow|Hc0].
  { destruct (Z.leb_spec c0 raw); [lia|]. cbn. by eexists. }
  destruct (Z.leb_spec c0 raw); [|lia]. cbn [andb].
  destruct (Z.ltb_spec raw c1) as [Hmid|Hc1].
  { destruct (Z.leb_spec c1 raw); [lia|]. cbn [andb].
    rewrite below_17kg_16 by assumption.
    destruct (quotient_defined (raw - c0) (c1 - c0) ltac:(lia)) as [q ->].
    by eexists. }
  destruct (Z.leb_spec c1 raw); [|lia]. cbn [andb].
  rewrite above_17kg_16 by assumption.
  destruct (Z.eqb_spec c2 c1) as [->|Hne].
  - unfold Rule.quotient. by rewrite Z.sub_diag.
  - destruct (quotient_defined (raw - c1) (c2 - c1) ltac:(lia)) as [q ->].
    by eexists.
Qed.

Lemma calc_mass_raises_witness :
  calc_mass [[100; 100; 100; 100]; [200; 200; 200; 200]; [200; 200; 200; 200]]
    250 TOP_LEFT = Raise ZeroDivisionError.
Proof.
  apply (calc_mass_raises
           [[100; 100; 100; 100]; [200; 200; 200; 200]; [200; 200; 200; 200]]
           250 TOP_LEFT).
  - split; [by apply shape_3x4_rows|]. repeat constructor; unfold word16; lia.
  - unfold TOP_LEFT. lia.
  - unfold word16. lia.
Defined.

(** X4. Before any calibration has come the table holds the sentinel
    in every cell: a reading below the sentinel weighs 0.0, any other
    one raises [ZeroDivisionError]. *)
Theorem uncalibrated_mass (nsamples : nat) (raw : Z) (pos : nat) :
  (pos < 4)%nat -> word16 raw ->
  calc_mass (calibration (new nsamples)) raw pos =
    if raw <? SENTINEL then Ok PyFloat.zero else Raise ZeroDivisionError.
Proof.
  intros Hpos Hraw.
  rewrite calc_mass_column by (by apply shape_3x4_rows || exact Hpos).
  assert (column (calibration (new nsamples)) pos = (SENTINEL, SENTINEL, SENTINEL))
    as ->.
  { destruct pos as [|[|[|[|pos]]]]; [reflexivity..|lia]. }
  destruct (raw <? SENTINEL); [reflexivity|].
  rewrite above_17kg_16 by (unfold word16, SENTINEL in *; lia).
  unfold Rule.quotient. by rewrite Z.sub_diag.
Qed.

Lemma uncalibrated_mass_witness :
  calc_mass (calibration (new 0)) 12000 BOTTOM_LEFT = Raise ZeroDivisionError.
Proof.
  apply (uncalibrated_mass 0 12000 BOTTOM_LEFT);
    [unfold BOTTOM_LEFT; lia|unfold word16; lia].
Defined.

(** ** Packets that the loop passes over, and packets cut short *)

Lemma getitem_short {A} (l : list A) (i : nat) :
  (List.length l <= i)%nat -> getitem l i = Raise IndexError.
Proof.
  intros H. unfold getitem. by rewrite (lookup_ge_None_2 l i H).
Qed.

Lemma slice_beyond {A} (i j : nat) (data : list A) :
  (List.length data <= i)%nat -> slice i j data = [].
Proof. intros H. unfold slice. rewrite drop_ge by exact H. apply take_nil. Qed.

Section Dispatch.

Variables N_SAMPLES N_LOOP T_SLEEP : Z.

(** X5. A packet of less than two bytes, and a packet whose type is
    none of status, read-data and extension, leaves the object as it is
    and the loop goes on. *)
Theorem handle_passes_over (data : list byte) (s : Wiiboard) :
  (List.length data < 2)%nat \/
  (exists tag, data !! 1%nat = Some tag /\
               tag <> x20 /\ tag <> x21 /\ tag <> x32) ->
  handle N_SAMPLES N_LOOP T_SLEEP data s = (Ok tt, s).
Proof.
  intros [Hshort|(tag & H1 & H20 & H21 & H32)]; unfold handle.
  - apply Nat.ltb_lt in Hshort. by rewrite Hshort.
  - rewrite (length_ge_2 _ _ H1), bind_lift, (getitem_lookup _ _ _ H1).
    destruct tag; try contradiction; reflexivity.
Qed.

(** X6. A status packet of less than five bytes raises [IndexError]
    at the light byte, after the battery level has been set: with the
    battery field missing the level is 0.0. *)
Theorem status_packet_cut_short (data : list byte) (s : Wiiboard) :
  data !! 1%nat = Some x20 -> (List.length data < 5)%nat ->
  handle N_SAMPLES N_LOOP T_SLEEP data s
    = (Raise IndexError, set_battery PyFloat.zero s).
Proof.
  intros H1 Hlen. unfold handle.
  rewrite (length_ge_2 _ _ H1), bind_lift, (getitem_lookup _ _ _ H1).
  change (byte_val x20 =? ord INPUT_STATUS) with true. cbn match.
  rewrite (slice_beyond 7 9 data) by lia.
  change (truediv (b2i []) BATTERY_MAX) with (Ok PyFloat.zero).
  rewrite bind_lift, bind_update, bind_lift.
  by rewrite getitem_short by (cbn; lia).
Qed.

(** X7. A status packet with a light byte, on an open control
    channel: the battery level is the field over the maximum, the light
    state is bit 4 of the light byte, and the callback sets the
    reporting mode, logs and switches the light on, in this order. *)
Theorem status_packet_handled (data : list byte) (d4 : byte) (s : Wiiboard) :
  data !! 1%nat = Some x20 -> data !! 4%nat = Some d4 ->
  controlsocket s = Connected ->
  handle N_SAMPLES N_LOOP T_SLEEP data s =
    (Ok tt,
     emit (Sent frame_light_on)
       (emit (Logged LogStatus)
          (emit (Sent [x52; x12; x04; x32])
             (set_light_state (Z.testbit (byte_val d4) 4)
                (set_battery
                   (PyFloat.div (PyFloat.of_Z (b2i (slice 7 9 data))) BATTERY_MAX)
                   s))))).
Proof.
  intros H1 H4 Hc. unfold handle.
  rewrite (length_ge_2 _ _ H1), bind_lift, (getitem_lookup _ _ _ H1).
  change (byte_val x20 =? ord INPUT_STATUS) with true. cbn match.
  pose proof (b2i_word16 (slice 7 9 data) (slice_length 7 9 data)) as Hf.
  unfold truediv. rewrite float_of_int_16 by (unfold word16 in Hf; lia).
  cbn [mbind result_bind]. change (PyFloat.is_zero BATTERY_MAX) with false.
  cbn match. rewrite bind_lift, bind_update, bind_lift.
  rewrite (getitem_lookup _ _ _ H4), bind_update.
  assert ((Z.land (byte_val d4) LED1_MASK =? LED1_MASK) = Z.testbit (byte_val d4) 4)
    as -> by (by destruct d4).
  unfold on_status, reporting, light.
  rewrite bind_run, send_run by exact Hc.
  rewrite bind_log. apply send_run. exact Hc.
Qed.

(** X8. A read-data packet that cannot be used: with a calibration
    requested and less than five bytes it raises [IndexError]; with none
    requested and no data length from an earlier packet of this loop it
    raises [UnboundLocalError]; the object is unchanged in both cases. *)
Theorem calibration_packet_rejected (data : list byte) (s : Wiiboard) :
  data !! 1%nat = Some x21 ->
  (calibration_requested s = true -> (List.length data < 5)%nat ->
   handle N_SAMPLES N_LOOP T_SLEEP data s = (Raise IndexError, s)) /\
  (calibration_requested s = false -> loop_length s = None ->
   handle N_SAMPLES N_LOOP T_SLEEP data s = (Raise UnboundLocalError, s)).
Proof.
  intros H1. rewrite handle_read_data by exact H1. unfold on_read_data.
  split.
  - intros Hreq Hlen. rewrite bind_read, Hreq, bind_run, bind_lift.
    by rewrite getitem_short by lia.
  - intros Hreq Hnone. rewrite bind_read, Hreq, bind_run.
    cbn [mret M_ret]. by rewrite bind_read, Hnone.
Qed.

End Dispatch.

(** ** The two fragments together *)

Lemma slice_slice {A} (i j k n : nat) (data : list A) :
  (j <= n)%nat ->
  slice i j (slice k (k + n) data) = slice (k + i) (k + j) data.
Proof.
  intros Hj. unfold slice.
  replace (k + n - k)%nat with n by lia.
  replace (k + j - (k + i))%nat with (j - i)%nat by lia.
  rewrite <- (drop_drop data i k).
  destruct (Nat.le_gt_cases i n) as [Hi|Hi].
  - replace n with (i + (n - i))%nat at 1 by lia.
    rewrite <- take_drop_commute, take_take. f_equal. lia.
  - replace (j - i)%nat with 0%nat by lia. reflexivity.
Qed.

Lemma slice_head_slice {A} (m k n : nat) (data : list A) :
  slice 0 m (slice k (k + n) data) = slice k (k + Nat.min m n) data.
Proof.
  unfold slice. cbn [drop].
  replace (k + n - k)%nat with n by lia.
  replace (k + Nat.min m n - k)%nat with (Nat.min m n) by lia.
  replace (m - 0)%nat with m by lia. apply take_take.
Qed.

Section Assembly.

Variables N_SAMPLES N_LOOP T_SLEEP : Z.

(** X9. The two calibration packets together: after a packet that
    announces sixteen bytes and one that announces less, the table holds
    the values of bytes 7-14 and 15-22 of the first and of the announced
    bytes (eight at most) from byte 7 of the second; the request is
    over, and the callback has logged, printed and switched the light
    on. *)
Theorem calibration_assembled
  (first second : list byte) (a b : byte) (s : Wiiboard) :
  table_shaped s -> calibration_requested s = true ->
  controlsocket s = Connected ->
  first !! 1%nat = Some x21 -> first !! 4%nat = Some a -> 240 <= byte_val a ->
  second !! 1%nat = Some x21 -> second !! 4%nat = Some b ->
  byte_val b < 240 ->
  let announced := Z.to_nat (byte_val b / 16 + 1) in
  let s1 := snd (handle N_SAMPLES N_LOOP T_SLEEP first s) in
  let r := handle N_SAMPLES N_LOOP T_SLEEP second s1 in
  fst r = Ok tt /\
  calibration (snd r) =
    [cal (slice 7 15 first); cal (slice 15 23 first);
     cal (slice 7 (7 + Nat.min 8 announced) second)] /\
  calibration_requested (snd r) = false /\
  trace (snd r) =
    trace s ++ [Logged LogCalibrated; Logged PrintMeasurement; Sent frame_light_on].
Proof.
  intros Hshape Hreq Hc H1 Ha Halen H1' Hb Hblen announced s1 r. subst r s1.
  pose proof (byte_val_range a) as Hra. pose proof (byte_val_range b) as Hrb.
  assert (byte_val a / 16 + 1 = 16) as Hlen1.
  { assert (byte_val a / 16 = 15); [|lia].
    symmetry. apply Z.div_unique with (byte_val a - 240); lia. }
  rewrite !handle_read_data by assumption.
  rewrite (on_read_data_first first a s Hreq Ha Hlen1). cbn [snd].
  set (s1 := set_calibration _ _).
  assert (byte_val b / 16 + 1 < 16) as Hlen2.
  { assert (byte_val b / 16 < 15); [|lia]. apply Z.div_lt_upper_bound; lia. }
  rewrite (on_read_data_second second b s1) by
    (subst s1; first [by apply shape_3x4_rows | assumption | cbn; lia]).
  unfold on_calibrated, light.
  rewrite !bind_log, send_run by exact Hc. cbn [fst snd].
  split; [reflexivity|]. subst s1.
  cbn [calibration set_calibration set_calibration_requested emit
       set_loop_length calibration_requested trace].
  split; [|split; [reflexivity|]].
  - cbn [list_insert insert]. 
    rewrite (slice_slice 0 8 7 16 first) by lia.
    rewrite (slice_slice 8 16 7 16 first) by lia.
    rewrite (slice_head_slice 8 7 (Z.to_nat (byte_val b / 16 + 1)) second).
    reflexivity.
  - by rewrite <- !app_assoc.
Qed.

End Assembly.

(** ** Extension packets *)

Lemma get_mass_weigh (data : list byte) (s : Wiiboard) :
  get_mass data s =
    match weigh (calibration s) data with
    | Ok mass =>
        match writerow (row_of mass) s with
        | (Ok _, s') => (Ok mass, s')
        | (Raise e, s') => (Raise e, s')
        end
    | Raise e => (Raise e, s)
    end.
Proof.
  unfold get_mass, weigh. rewrite bind_read.
  destruct (calc_mass (calibration s) (b2i (slice 0 2 data)) TOP_RIGHT) as [TR|e];
    rewrite bind_lift; cbn [mbind result_bind]; [|reflexivity].
  destruct (calc_mass (calibration s) (b2i (slice 2 4 data)) BOTTOM_RIGHT) as [BR|e];
    rewrite bind_lift; cbn [mbind result_bind]; [|reflexivity].
  destruct (calc_mass (calibration s) (b2i (slice 4 6 data)) TOP_LEFT) as [TL|e];
    rewrite bind_lift; cbn [mbind result_bind]; [|reflexivity].
  destruct (calc_mass (calibration s) (b2i (slice 6 8 data)) BOTTOM_LEFT) as [BL|e];
    rewrite bind_lift; cbn [mbind result_bind]; [|reflexivity].
  rewrite bind_run. unfold row_of. cbn [top_right bottom_right top_left bottom_left].
  destruct (writerow [TR; BR; TL; BL] s) as [[[]|e] s']; reflexivity.
Qed.

(** What [check_button] leaves alone. *)
Lemma check_button_frame (state : Z) (s : Wiiboard) :
  let s' := snd (check_button state s) in
  calibration s' = calibration s /\ csv_writer s' = csv_writer s /\
  csv_file s' = csv_file s /\ samples s' = samples s /\ maxlen s' = maxlen s /\
  rows (trace s') = rows (trace s).
Proof.
  rewrite check_button_run. cbn [snd].
  destruct (state =? BUTTON_DOWN_MASK), (button_down s); repeat split;
    unfold rows; cbn [trace emit set_button_down];
    by rewrite omap_app, app_nil_r.
Qed.

Section Extension.

Variables N_SAMPLES N_LOOP T_SLEEP : Z.

Lemma handle_extension (data : list byte) (s : Wiiboard) :
  data !! 1%nat = Some x32 ->
  handle N_SAMPLES N_LOOP T_SLEEP data s =
    (check_button (b2i (slice 2 4 data));;
     mass ← get_mass (slice 4 12 data);
     on_mass N_SAMPLES N_LOOP T_SLEEP mass) s.
Proof.
  intros H1. unfold handle.
  rewrite (length_ge_2 _ _ H1), bind_lift, (getitem_lookup _ _ _ H1).
  reflexivity.
Qed.

(** X10. An extension packet that the table can weigh, with a writer
    on an open file and room in the window, when the window does not
    reach [N_SAMPLES]: the buttons are checked, one row with the four
    weights (top right, bottom right, top left, bottom left) is written
    and the sample is appended to the window; nothing else changes. *)
Theorem sample_packet_handled (data : list byte) (mass : mass_dict) (s : Wiiboard) :
  data !! 1%nat = Some x32 ->
  weigh (calibration s) (slice 4 12 data) = Ok mass ->
  csv_writer s = true -> csv_file s = true ->
  (List.length (samples s) < maxlen s)%nat ->
  Z.of_nat (List.length (samples s)) + 1 <> N_SAMPLES ->
  handle N_SAMPLES N_LOOP T_SLEEP data s =
    (Ok tt,
     set_samples (samples s ++ [mass])
       (emit (WriteRow (row_of mass))
          (snd (check_button (b2i (slice 2 4 data)) s)))).
Proof.
  intros H1 Hmass Hw Hf Hroom Hnot. rewrite handle_extension by exact H1.
  destruct (check_button_frame (b2i (slice 2 4 data)) s)
    as (Ecal & Ew & Ef & Esamples & Emax & _).
  set (s1 := snd (check_button (b2i (slice 2 4 data)) s)) in *.
  assert (check_button (b2i (slice 2 4 data)) s = (Ok tt, s1)) as Hbutton.
  { subst s1. by rewrite check_button_run. }
  rewrite bind_run, Hbutton, bind_run, get_mass_weigh, Ecal, Hmass.
  unfold writerow. rewrite Ew, Ef, Hw, Hf.
  unfold on_mass. rewrite !bind_read, bind_update.
  cbn [maxlen samples emit]. rewrite Emax, Esamples.
  rewrite deque_append_room by exact Hroom.
  unfold on_sample. rewrite bind_read. cbn [samples set_samples].
  rewrite length_app. cbn [List.length].
  destruct (Z.eqb_spec (Z.of_nat (List.length (samples s) + 1)) N_SAMPLES);
    [lia|reflexivity].
Qed.

(** X11. An extension packet fails after the buttons are checked:
    with the exception of [calc_mass] when the table cannot weigh it,
    and with [AttributeError] when no csv writer has been set; no row
    is written and the window is left as it was. *)
Theorem sample_packet_fails (data : list byte) (s : Wiiboard) :
  data !! 1%nat = Some x32 ->
  let pressed := snd (check_button (b2i (slice 2 4 data)) s) in
  (forall e,
     weigh (calibration s) (slice 4 12 data) = Raise e ->
     handle N_SAMPLES N_LOOP T_SLEEP data s = (Raise e, pressed)) /\
  (forall mass,
     weigh (calibration s) (slice 4 12 data) = Ok mass ->
     csv_writer s = false ->
     handle N_SAMPLES N_LOOP T_SLEEP data s = (Raise AttributeError, pressed)).
Proof.
  intros H1 pressed.
  destruct (check_button_frame (b2i (slice 2 4 data)) s)
    as (Ecal & Ew & Ef & _). fold pressed in Ecal, Ew, Ef.
  assert (check_button (b2i (slice 2 4 data)) s = (Ok tt, pressed)) as Hbutton.
  { subst pressed. by rewrite check_button_run. }
  split.
  - intros e Hfail. rewrite handle_extension by exact H1.
    rewrite bind_run, Hbutton, bind_run, get_mass_weigh, Ecal, Hfail.
    reflexivity.
  - intros mass Hmass Hw. rewrite handle_extension by exact H1.
    rewrite bind_run, Hbutton, bind_run, get_mass_weigh, Ecal, Hmass.
    unfold writerow. rewrite Ew, Hw. reflexivity.
Qed.

End Extension.

(** ** The rows of a session *)

Lemma rows_emit (e : event) (s : Wiiboard) :
  rows (trace (emit e s)) =
    rows (trace s) ++ match e with WriteRow row => [row] | _ => [] end.
Proof.
  unfold rows. cbn [trace emit]. rewrite omap_app. by destruct e.
Qed.

Lemma rows_closed (s : Wiiboard) : rows (trace (closed s)) = rows (trace s).
Proof.
  unfold closed. rewrite rows_emit. cbn [trace set_controlsocket].
  rewrite rows_emit. cbn [trace set_receivesocket set_running].
  rewrite rows_emit. cbn [trace set_csv_file]. by rewrite !app_nil_r.
Qed.

Lemma rows_epoch_counted (s : Wiiboard) :
  rows (trace (epoch_counted s)) = rows (trace s).
Proof.
  unfold epoch_counted. cbn [trace set_nloop]. rewrite rows_emit.
  cbn [trace set_samples]. rewrite rows_emit. by rewrite !app_nil_r.
Qed.

Section Rows.

Variables N_SAMPLES N_LOOP T_SLEEP : Z.
Hypothesis N_SAMPLES_pos : 0 < N_SAMPLES.

Lemma handle_sample_rows (tbl : list (list Z)) (packet : list byte) (s : Wiiboard) :
  sampling N_SAMPLES N_LOOP tbl s ->
  sample_packet tbl packet ->
  rows (trace (snd (handle N_SAMPLES N_LOOP T_SLEEP (take 25 packet) s)))
    = rows (trace s) ++ [packet_row tbl packet].
Proof.
  intros (Hrun & Hctl & Hrcv & Hw & Hf & Htbl & [Hmax Hlen] & Hk)
    [H1 [mass Hmass]].
  unfold packet_row. rewrite Hmass.
  rewrite handle_extension by exact H1.
  destruct (check_button_frame (b2i (slice 2 4 (take 25 packet))) s)
    as (Ecal & Ew & Ef & Esamples & Emax & Erows).
  set (s1 := snd (check_button (b2i (slice 2 4 (take 25 packet))) s)) in *.
  assert (check_button (b2i (slice 2 4 (take 25 packet))) s = (Ok tt, s1))
    as Hbutton.
  { subst s1. by rewrite check_button_run. }
  assert (controlsocket s1 = Connected) as Hctl1.
  { subst s1. rewrite check_button_run. cbn [snd].
    by destruct (_ =? BUTTON_DOWN_MASK), (button_down s). }
  rewrite bind_run, Hbutton, bind_run, get_mass_weigh, Ecal, Htbl, Hmass.
  unfold writerow. rewrite Ew, Ef, Hw, Hf.
  unfold on_mass. rewrite !bind_read, bind_update.
  rewrite on_sample_run by exact Hctl1. cbn [snd].
  clearbody s1.
  destruct (_ =? N_SAMPLES); [destruct (_ >? N_LOOP)|];
    rewrite ?rows_emit, ?rows_closed, ?rows_epoch_counted;
    cbn [trace set_samples]; rewrite rows_emit, Erows;
    by rewrite ?app_nil_r.
Qed.

Lemma iterations_rows (tbl : list (list Z)) (inbox : list (list byte)) :
  Forall (sample_packet tbl) inbox ->
  forall s,
    sampling N_SAMPLES N_LOOP tbl s ->
    rows (trace (snd (iterations N_SAMPLES N_LOOP T_SLEEP inbox s))) =
      rows (trace s) ++
      map (packet_row tbl)
        (take (Z.to_nat (N_SAMPLES * (N_LOOP + 1) - progress N_SAMPLES s)) inbox).
Proof.
  induction 1 as [|packet inbox Hpacket _ IH]; intros s Hs.
  - rewrite take_nil. cbn. by rewrite app_nil_r.
  - pose proof (sampling_progress N_SAMPLES N_LOOP N_SAMPLES_pos tbl s Hs) as Hp.
    pose proof Hs as (Hrun & _ & Hrcv & _).
    pose proof (handle_sample_rows tbl packet s Hs Hpacket) as Hrows.
    destruct (handle_sample N_SAMPLES N_LOOP T_SLEEP tbl packet s
                N_SAMPLES_pos Hs Hpacket) as (s1 & Hstep & Hprog & Hnext).
    rewrite Hstep in Hrows. cbn [snd] in Hrows.
    cbn [iterations]. rewrite bind_read, Hrun, bind_run.
    unfold recv at 1. rewrite Hrcv, bind_run, Hstep.
    replace (Z.to_nat (N_SAMPLES * (N_LOOP + 1) - progress N_SAMPLES s))
      with (S (Z.to_nat (N_SAMPLES * (N_LOOP + 1) - progress N_SAMPLES s1)))
      by lia.
    cbn [take map].
    destruct (Z.eqb_spec (progress N_SAMPLES s + 1) (N_SAMPLES * (N_LOOP + 1)))
      as [Hend|Hmore].
    + destruct Hnext as (Hstop & _).
      rewrite iterations_stopped by exact Hstop. cbn [snd].
      replace (Z.to_nat (N_SAMPLES * (N_LOOP + 1) - progress N_SAMPLES s1))
        with 0%nat by lia.
      by rewrite Hrows, take_0.
    + rewrite (IH s1 Hnext), Hrows. by rewrite <- app_assoc.
Qed.

End Rows.

(** X12. The rows of a session: from a sampling object, a loop over
    packets that carry samples writes one row per packet, in the order
    of the packets, and stops writing after the sample that completes
    the last epoch: packets that come later are never read. *)
Theorem session_rows
  (N_SAMPLES N_LOOP T_SLEEP : Z) (tbl : list (list Z))
  (inbox : list (list byte)) (s : Wiiboard) :
  0 < N_SAMPLES ->
  Forall (sample_packet tbl) inbox ->
  sampling N_SAMPLES N_LOOP tbl s ->
  let left := Z.to_nat (N_SAMPLES * (N_LOOP + 1) - progress N_SAMPLES s) in
  rows (trace (snd (loop N_SAMPLES N_LOOP T_SLEEP inbox s))) =
    rows (trace s) ++ map (packet_row tbl) (take left inbox).
Proof.
  intros HN Hinbox Hs left. unfold loop. rewrite bind_update.
  apply (iterations_rows N_SAMPLES N_LOOP T_SLEEP HN tbl inbox Hinbox
           (set_loop_length None s) Hs).
Qed.

(** ** A window shorter than the sample count *)

Section ShortWindow.

Variables N_SAMPLES N_LOOP T_SLEEP : Z.
Variable s0 : Wiiboard.

Lemma short_window_on_mass (mass : mass_dict) :
  preserves (short_window N_SAMPLES s0) (on_mass N_SAMPLES N_LOOP T_SLEEP mass).
Proof.
  intros s (Hmax & Hbound & Hrest). unfold on_mass.
  rewrite !bind_read, bind_update. unfold on_sample. rewrite bind_read.
  cbn [samples set_samples].
  pose proof (deque_append_length (maxlen s) mass (samples s) Hbound) as Hlen.
  destruct (Z.eqb_spec
              (Z.of_nat (List.length (deque_append (maxlen s) mass (samples s))))
              N_SAMPLES) as [Hfull|_]; [lia|].
  cbn [snd]. split; [exact Hmax|]. split; [exact Hlen|exact Hrest].
Qed.

#[local] Hint Resolve short_window_on_mass : preserved.

Lemma short_window_handle (data : list byte) :
  preserves (short_window N_SAMPLES s0) (handle N_SAMPLES N_LOOP T_SLEEP data).
Proof. unfold handle, on_read_data. keeps. Qed.

Lemma short_window_iterations (inbox : list (list byte)) :
  preserves (short_window N_SAMPLES s0) (iterations N_SAMPLES N_LOOP T_SLEEP inbox).
Proof.
  induction inbox as [|packet inbox IH]; cbn [iterations]; keeps.
  apply short_window_handle.
Qed.

End ShortWindow.

(** X13. A window built shorter than [N_SAMPLES] never reaches
    [N_SAMPLES] samples: whatever the packets, no epoch is counted and
    the loop closes nothing. *)
Theorem short_window_never_completes
  (N_SAMPLES N_LOOP T_SLEEP : Z) (inbox : list (list byte)) (s : Wiiboard) :
  Z.of_nat (maxlen s) < N_SAMPLES -> window_bounded s ->
  let s' := snd (loop N_SAMPLES N_LOOP T_SLEEP inbox s) in
  nloop s' = nloop s /\ running s' = running s /\
  controlsocket s' = controlsocket s /\ receivesocket s' = receivesocket s /\
  csv_file s' = csv_file s.
Proof.
  intros Hmax Hbound s'. subst s'. unfold loop. rewrite bind_update.
  apply (short_window_iterations N_SAMPLES N_LOOP T_SLEEP s inbox
           (set_loop_length None s)).
  by repeat split.
Qed.

(** ** The main program *)

Lemma WiiboardPrint_run (nsamples : nat) :
  WiiboardPrint true nsamples = connect (new nsamples).
Proof. reflexivity. Qed.

Lemma WiiboardPrint_connects (nsamples : nat) :
  fst (WiiboardPrint true nsamples) = Ok tt.
Proof. reflexivity. Qed.

Lemma exit_run (exc_type : option exn) (s : Wiiboard) :
  __exit__ exc_type s =
    (Ok (match exc_type with Some _ => false | None => true end), closed s).
Proof. reflexivity. Qed.

(** As long as [loop] returns with [running] set, it goes on with the
    packets that come next. *)
Lemma iterations_waits
  (N_SAMPLES N_LOOP T_SLEEP : Z) (inbox more : list (list byte)) :
  forall s s',
    iterations N_SAMPLES N_LOOP T_SLEEP inbox s = (Ok tt, s') ->
    running s' = true ->
    iterations N_SAMPLES N_LOOP T_SLEEP (inbox ++ more) s =
      iterations N_SAMPLES N_LOOP T_SLEEP more s'.
Proof.
  induction inbox as [|packet inbox IH]; intros s s' Hrun Hgo.
  - cbn in Hrun. by injection Hrun as ->.
  - cbn [app iterations] in *. rewrite bind_read in *.
    destruct (running s) eqn:Hs.
    + rewrite bind_run in *.
      destruct (recv packet s) as [[data|e] s1]; [|discriminate Hrun].
      rewrite bind_run in *.
      destruct (handle N_SAMPLES N_LOOP T_SLEEP data s1) as [[[]|e] s2];
        [|discriminate Hrun].
      by apply IH.
    + cbn in Hrun. injection Hrun as <-. congruence.
Qed.

(** The main program on the outcome of its loop. *)
Lemma main_run (N_SAMPLES N_LOOP T_SLEEP : Z) (inbox : list (list byte)) :
  let wiiprint :=
    set_csv_writer true (snd (WiiboardPrint true (Z.to_nat N_SAMPLES))) in
  let l := loop N_SAMPLES N_LOOP T_SLEEP inbox wiiprint in
  main N_SAMPLES N_LOOP T_SLEEP inbox =
    match fst l with
    | Ok _ =>
        if running (snd l) then (Waiting, snd l)
        else (Exited (Ok tt), closed (snd l))
    | Raise e => (Exited (Raise e), closed (snd l))
    end.
Proof.
  intros wiiprint l. subst l wiiprint. unfold main.
  pose proof (WiiboardPrint_connects (Z.to_nat N_SAMPLES)) as Hok.
  destruct (WiiboardPrint true (Z.to_nat N_SAMPLES)) as [[[]|e] w];
    [|discriminate Hok].
  cbn [snd]. unfold __enter__, pass. rewrite bind_run. cbn [mret M_ret].
  rewrite bind_update.
  destruct (loop N_SAMPLES N_LOOP T_SLEEP inbox _) as [[[]|e] s]; cbn [fst snd].
  - destruct (running s); [reflexivity|]. by rewrite exit_run.
  - by rewrite exit_run.
Qed.

(** X14. The [with] statement of the main program releases the board
    when its loop is over: if the loop raised, or returned with
    [running] cleared, the program ends with the outcome of the loop,
    so that [__exit__] drops no exception, and the object is stopped
    with both channels and the csv file closed. *)
Theorem main_releases (N_SAMPLES N_LOOP T_SLEEP : Z) (inbox : list (list byte)) :
  let wiiprint :=
    set_csv_writer true (snd (WiiboardPrint true (Z.to_nat N_SAMPLES))) in
  let l := loop N_SAMPLES N_LOOP T_SLEEP inbox wiiprint in
  let r := main N_SAMPLES N_LOOP T_SLEEP inbox in
  fst l <> Ok tt \/ running (snd l) = false ->
  fst r = Exited (fst l) /\
  running (snd r) = false /\
  controlsocket (snd r) = Closed /\ receivesocket (snd r) = Closed /\
  csv_file (snd r) = false /\
  trace (snd r) = trace (snd l) ++ [ClosedCsv; ClosedReceive; ClosedControl].
Proof.
  intros wiiprint l r Hover. subst r. rewrite main_run.
  fold wiiprint. fold l. clearbody l.
  assert (trace (closed (snd l)) =
            trace (snd l) ++ [ClosedCsv; ClosedReceive; ClosedControl]) as Htrace.
  { unfold closed. cbn [trace emit set_controlsocket set_receivesocket
                        set_running set_csv_file].
    by rewrite <- !app_assoc. }
  destruct l as [[[]|e] s]; cbn [fst snd] in *.
  - destruct Hover as [Hraised|Hstopped]; [by destruct Hraised|].
    rewrite Hstopped. by repeat split.
  - by repeat split.
Qed.

Lemma main_releases_witness :
  (let r := main 2 0 2 [[xa1; x20; x00; x00]] in
   fst r = Exited (Raise IndexError) /\
   running (snd r) = false /\
   controlsocket (snd r) = Closed /\ receivesocket (snd r) = Closed /\
   csv_file (snd r) = false) /\
  (let r :=
     main 2 0 2
       (first_fragment :: second_fragment :: replicate 2 sample_packet_150) in
   fst r = Exited (Ok tt) /\
   running (snd r) = false /\
   controlsocket (snd r) = Closed /\ receivesocket (snd r) = Closed /\
   csv_file (snd r) = false).
Proof.
  split.
  - destruct (main_releases 2 0 2 [[xa1; x20; x00; x00]])
      as (H1 & H2 & H3 & H4 & H5 & _);
      [left; vm_compute; discriminate|by repeat split].
  - destruct (main_releases 2 0 2
                (first_fragment :: second_fragment
                   :: replicate 2 sample_packet_150))
      as (H1 & H2 & H3 & H4 & H5 & _);
      [right; vm_compute; reflexivity|by repeat split].
Defined.

(** ** The frames that go out *)

Lemma sent_frames_emit (e : event) (s : Wiiboard) :
  sent_frames (trace (emit e s)) =
    sent_frames (trace s) ++ match e with Sent frame => [frame] | _ => [] end.
Proof.
  unfold sent_frames. cbn [trace emit]. rewrite omap_app. by destruct e.
Qed.

Lemma frames_known_emit (e : event) (s : Wiiboard) :
  known_event e -> frames_known s -> frames_known (emit e s).
Proof.
  intros He Hs. unfold frames_known. rewrite sent_frames_emit.
  apply Forall_app. split; [exact Hs|].
  destruct e; try constructor; [exact He|constructor].
Qed.

Lemma frames_known_update_emit (e : event) :
  known_event e -> preserves frames_known (update (emit e)).
Proof. intros He s Hs. by apply frames_known_emit. Qed.

Lemma frames_known_send (data : list (list byte)) :
  In (x52 :: concat data) known_frames -> preserves frames_known (send data).
Proof.
  intros Hin s Hs. unfold send, controlsocket_send.
  destruct (controlsocket s); cbn [snd]; try exact Hs.
  by apply frames_known_emit.
Qed.

Lemma frames_known_writerow (row : list float) :
  preserves frames_known (writerow row).
Proof.
  intros s Hs. unfold writerow.
  destruct (csv_writer s), (csv_file s); cbn [snd]; try exact Hs.
  by apply frames_known_emit.
Qed.

Lemma frames_known_check_button (state : Z) :
  preserves frames_known (check_button state).
Proof.
  intros s Hs. rewrite check_button_run. cbn [snd].
  destruct (state =? BUTTON_DOWN_MASK), (button_down s); try exact Hs;
    by apply frames_known_emit.
Qed.

(** One step of a proof that a method sends known frames only. *)
Ltac known_step :=
  first
    [ assumption
    | solve [auto 1 with preserved nocore]
    | apply preserves_ret
    | apply preserves_raise
    | apply preserves_lift
    | apply preserves_read
    | apply frames_known_update_emit; exact I
    | apply frames_known_send; cbn; tauto
    | apply frames_known_writerow
    | apply frames_known_check_button
    | apply preserves_recv
    | apply preserves_update; intros ? ?; assumption
    | apply preserves_bind; [|intros ?]
    | match goal with
      | |- preserves _ (if ?b then _ else _) => destruct b
      | |- preserves _ (match ?x with Some _ => _ | None => _ end) => destruct x
      end ].

Section Frames.

Variables N_SAMPLES N_LOOP T_SLEEP : Z.

Lemma frames_known_on_status : preserves frames_known on_status.
Proof. unfold on_status, reporting, light, log. repeat known_step. Qed.

Lemma frames_known_on_calibrated : preserves frames_known on_calibrated.
Proof. unfold on_calibrated, light, log. repeat known_step. Qed.

Lemma frames_known_on_sample :
  preserves frames_known (on_sample N_SAMPLES N_LOOP T_SLEEP).
Proof. unfold on_sample, status, light, close, log. repeat known_step. Qed.

Lemma frames_known_get_mass (data : list byte) :
  preserves frames_known (get_mass data).
Proof. unfold get_mass. repeat known_step. Qed.

#[local] Hint Resolve frames_known_on_status frames_known_on_calibrated
  frames_known_on_sample frames_known_get_mass : preserved.

Lemma frames_known_handle (data : list byte) :
  preserves frames_known (handle N_SAMPLES N_LOOP T_SLEEP data).
Proof. unfold handle, on_read_data, on_mass. repeat known_step. Qed.

Lemma frames_known_iterations (inbox : list (list byte)) :
  preserves frames_known (iterations N_SAMPLES N_LOOP T_SLEEP inbox).
Proof.
  induction inbox as [|packet inbox IH]; cbn [iterations]; repeat known_step.
  apply frames_known_handle.
Qed.

Lemma frames_known_connect : preserves frames_known connect.
Proof. unfold connect, light, log. repeat known_step. Qed.

End Frames.

Lemma frames_known_closed (s : Wiiboard) :
  frames_known s -> frames_known (closed s).
Proof.
  intros Hs. unfold closed.
  repeat first [apply frames_known_emit; [exact I|] | assumption].
Qed.

Lemma frames_known_main_loop
  (N_SAMPLES N_LOOP T_SLEEP : Z) (inbox : list (list byte)) :
  frames_known
    (snd (loop N_SAMPLES N_LOOP T_SLEEP inbox
            (set_csv_writer true
               (snd (WiiboardPrint true (Z.to_nat N_SAMPLES)))))).
Proof.
  rewrite WiiboardPrint_run.
  pose proof (frames_known_connect (new (Z.to_nat N_SAMPLES))
                ltac:(constructor)) as Hc.
  destruct (connect (new (Z.to_nat N_SAMPLES))) as [res w]. cbn [snd] in *.
  unfold loop. rewrite bind_update.
  apply (frames_known_iterations N_SAMPLES N_LOOP T_SLEEP inbox
           (set_loop_length None (set_csv_writer true w)) Hc).
Qed.

(** X15. Whatever the packets, every frame that the main program
    sends is one of six: the register read and write of the handshake,
    the status request, light off, light on and the reporting mode;
    each starts with the byte 0x52. *)
Theorem only_known_frames
  (N_SAMPLES N_LOOP T_SLEEP : Z) (inbox : list (list byte)) :
  let r := main N_SAMPLES N_LOOP T_SLEEP inbox in
  Forall (fun frame => In frame known_frames /\ head frame = Some x52)
    (sent_frames (trace (snd r))).
Proof.
  intros r.
  assert (frames_known (snd r)) as Hknown.
  { subst r. rewrite main_run. cbv zeta.
    pose proof (frames_known_main_loop N_SAMPLES N_LOOP T_SLEEP inbox) as Hl.
    destruct (loop N_SAMPLES N_LOOP T_SLEEP inbox _) as [res s].
    cbn [fst snd] in *.
    destruct res as [[]|e]; [destruct (running s)|]; cbn [snd];
      first [assumption | by apply frames_known_closed]. }
  unfold frames_known in Hknown. eapply Forall_impl; [exact Hknown|].
  intros frame Hin. split; [exact Hin|].
  cbn in Hin. destruct Hin as [<-|[<-|[<-|[<-|[<-|[<-|[]]]]]]]; reflexivity.
Qed.

(** ** The weights of the three references *)

(** X16. The three references of a corner weigh what they stand for:
    when they increase strictly, a reading equal to the first weighs
    0.0, to the second 17.0 and to the third 34.0, exactly. *)
Theorem calc_mass_at_references (tbl : list (list Z)) (pos : nat) :
  table_ok tbl -> (pos < 4)%nat ->
  let '(c0, c1, c2) := column tbl pos in
  c0 < c1 < c2 ->
  calc_mass tbl c0 pos = Ok PyFloat.zero /\
  calc_mass tbl c1 pos = Ok PyFloat.seventeen /\
  calc_mass tbl c2 pos = Ok thirty_four.
Proof.
  intros Hok Hpos. pose proof Hok as [Hshape _].
  pose proof (cell_word16 tbl 0 pos Hok ltac:(lia) Hpos) as H0.
  pose proof (cell_word16 tbl 1 pos Hok ltac:(lia) Hpos) as H1.
  pose proof (cell_word16 tbl 2 pos Hok ltac:(lia) Hpos) as H2.
  unfold column. intros Hlt. split; [|split].
  - rewrite calc_mass_column by assumption. unfold column.
    rewrite Z.ltb_irrefl.
    destruct (Z.ltb_spec (nth pos (nth 0 tbl []) 0) (nth pos (nth 1 tbl []) 0));
      [|lia].
    rewrite below_17kg_16 by assumption. rewrite Z.sub_diag.
    unfold word16 in *.
    destruct (quotient_self (nth pos (nth 1 tbl []) 0 - nth pos (nth 0 tbl []) 0)
                ltac:(lia)) as [_ ->].
    reflexivity.
  - by apply calc_mass_at_17kg.
  - rewrite calc_mass_column by assumption. unfold column.
    destruct (Z.ltb_spec (nth pos (nth 2 tbl []) 0) (nth pos (nth 0 tbl []) 0));
      [lia|].
    destruct (Z.ltb_spec (nth pos (nth 2 tbl []) 0) (nth pos (nth 1 tbl []) 0));
      [lia|].
    rewrite above_17kg_16 by assumption. unfold word16 in *.
    destruct (quotient_self (nth pos (nth 2 tbl []) 0 - nth pos (nth 1 tbl []) 0)
                ltac:(lia)) as [-> _].
    reflexivity.
Qed.

Lemma calc_mass_at_references_witness :
  calc_mass factory_calibration 5944 TOP_RIGHT = Ok PyFloat.zero /\
  calc_mass factory_calibration 7688 TOP_RIGHT = Ok PyFloat.seventeen /\
  calc_mass factory_calibration 9449 TOP_RIGHT = Ok thirty_four.
Proof.
  apply (calc_mass_at_references factory_calibration TOP_RIGHT
           factory_calibration_ok ltac:(unfold TOP_RIGHT; lia)).
  cbn. lia.
Defined.

(** ** A whole session of the main program *)

Lemma slice_take {A} (i j n : nat) (data : list A) :
  (j <= n)%nat -> slice i j (take n data) = slice i j data.
Proof.
  intros Hj. unfold slice.
  destruct (Nat.le_gt_cases i n) as [Hi|Hi].
  - replace n with (i + (n - i))%nat at 1 by lia.
    rewrite <- take_drop_commute, take_take. f_equal. lia.
  - by replace (j - i)%nat with 0%nat by lia.
Qed.

Section MainSession.

Variables N_SAMPLES N_LOOP T_SLEEP : Z.
Hypothesis N_SAMPLES_pos : 0 < N_SAMPLES.
Hypothesis N_LOOP_nonneg : 0 <= N_LOOP.

(** The object of the main program when the two fragments have come. *)
Lemma main_calibrated (first second : list byte) (a b : byte) :
  first !! 1%nat = Some x21 -> first !! 4%nat = Some a -> 240 <= byte_val a ->
  second !! 1%nat = Some x21 -> second !! 4%nat = Some b -> byte_val b < 240 ->
  let announced := Z.to_nat (byte_val b / 16 + 1) in
  let tbl :=
    [cal (slice 7 15 first); cal (slice 15 23 first);
     cal (slice 7 (7 + Nat.min 8 announced) second)] in
  let board :=
    set_loop_length None
      (set_csv_writer true (snd (WiiboardPrint true (Z.to_nat N_SAMPLES)))) in
  exists s,
    handle N_SAMPLES N_LOOP T_SLEEP second
      (snd (handle N_SAMPLES N_LOOP T_SLEEP first board)) = (Ok tt, s) /\
    fst (handle N_SAMPLES N_LOOP T_SLEEP first board) = Ok tt /\
    running (snd (handle N_SAMPLES N_LOOP T_SLEEP first board)) = true /\
    receivesocket (snd (handle N_SAMPLES N_LOOP T_SLEEP first board))
      = Connected /\
    sampling N_SAMPLES N_LOOP tbl s /\ progress N_SAMPLES s = 0 /\
    rows (trace s) = [].
Proof.
  intros H1 Ha Halen H1' Hb Hblen announced tbl board.
  pose proof (byte_val_range a) as Hra. pose proof (byte_val_range b) as Hrb.
  assert (byte_val a / 16 + 1 = 16) as Hlen1.
  { assert (byte_val a / 16 = 15); [|lia].
    symmetry. apply Z.div_unique with (byte_val a - 240); lia. }
  assert (byte_val b / 16 + 1 < 16) as Hlen2.
  { assert (byte_val b / 16 < 15); [|lia]. apply Z.div_lt_upper_bound; lia. }
  rewrite !handle_read_data by assumption.
  rewrite (on_read_data_first first a board eq_refl Ha Hlen1). cbn [fst snd].
  set (s1 := set_calibration _ _).
  rewrite (on_read_data_second second b s1) by
    (subst s1; first [by apply shape_3x4_rows | assumption | reflexivity]).
  unfold on_calibrated, light.
  rewrite !bind_log, send_run by reflexivity.
  eexists. split; [reflexivity|].
  split; [reflexivity|]. split; [reflexivity|]. split; [reflexivity|].
  split; [|split; [|reflexivity]].
  - repeat split; try reflexivity.
    + subst s1 tbl announced.
      cbn [calibration set_calibration set_calibration_requested emit
           set_loop_length list_insert insert].
      rewrite (slice_slice 0 8 7 16 first) by lia.
      rewrite (slice_slice 8 16 7 16 first) by lia.
      rewrite (slice_head_slice 8 7 (Z.to_nat (byte_val b / 16 + 1)) second).
      reflexivity.
    + exact N_SAMPLES_pos.
    + exact N_LOOP_nonneg.
  - unfold progress. change (0 + N_SAMPLES * 0 = 0). lia.
Qed.

End MainSession.

(** X17. A whole run of the main program: after the two calibration
    packets and at least [N_SAMPLES * (N_LOOP + 1)] packets that the
    assembled table can weigh, the program ends without an exception;
    it has written one row for each of the first
    [N_SAMPLES * (N_LOOP + 1)] samples and no other, counted
    [N_LOOP + 1] epochs, and closed both channels and the file. *)
Theorem main_session
  (N_SAMPLES N_LOOP T_SLEEP : Z) (one two : list byte) (a b : byte)
  (packets : list (list byte)) :
  0 < N_SAMPLES -> 0 <= N_LOOP ->
  let first := take 25 one in
  let second := take 25 two in
  first !! 1%nat = Some x21 -> first !! 4%nat = Some a -> 240 <= byte_val a ->
  second !! 1%nat = Some x21 -> second !! 4%nat = Some b -> byte_val b < 240 ->
  let announced := Z.to_nat (byte_val b / 16 + 1) in
  let tbl :=
    [cal (slice 7 15 first); cal (slice 15 23 first);
     cal (slice 7 (7 + Nat.min 8 announced) second)] in
  let total := Z.to_nat (N_SAMPLES * (N_LOOP + 1)) in
  Forall (sample_packet tbl) packets ->
  (total <= List.length packets)%nat ->
  let r := main N_SAMPLES N_LOOP T_SLEEP (one :: two :: packets) in
  fst r = Exited (Ok tt) /\
  rows (trace (snd r)) = map (packet_row tbl) (take total packets) /\
  nloop (snd r) = N_LOOP + 1 /\
  running (snd r) = false /\
  controlsocket (snd r) = Closed /\ receivesocket (snd r) = Closed /\
  csv_file (snd r) = false.
Proof.
  intros HN HL first second H1 Ha Halen H1' Hb Hblen announced tbl total
    Hpackets Hcount r.
  assert (exists s',
            loop N_SAMPLES N_LOOP T_SLEEP (one :: two :: packets)
              (set_csv_writer true
                 (snd (WiiboardPrint true (Z.to_nat N_SAMPLES))))
              = (Ok tt, s') /\
            terminated N_LOOP s' /\
            rows (trace s') = map (packet_row tbl) (take total packets))
    as (s' & Hl & (Hrun & Hc & Hr & _ & Hk) & Hrows).
  { destruct (main_calibrated N_SAMPLES N_LOOP T_SLEEP HN HL first second a b
                H1 Ha Halen H1' Hb Hblen)
      as (s2 & Hsecond & Hfirst & Hrun1 & Hrcv1 & Hs2 & Hprog & Hrows).
    fold announced tbl in Hs2.
    pose proof (WiiboardPrint_connects (Z.to_nat N_SAMPLES)) as Hok.
    destruct (WiiboardPrint true (Z.to_nat N_SAMPLES)) as [[[]|e] w] eqn:Hw;
      [|discriminate Hok].
    cbn [snd] in *.
    assert (running w = true /\ receivesocket w = Connected) as [Hrunw Hrcvw].
    { change w with (snd (Ok tt, w)). rewrite <- Hw. by split. }
    unfold loop. rewrite bind_update. cbn [iterations].
    rewrite bind_read. cbn [running set_loop_length set_csv_writer].
    rewrite Hrunw, bind_run. unfold recv at 1.
    cbn [receivesocket set_loop_length set_csv_writer]. rewrite Hrcvw.
    fold first. rewrite bind_run.
    destruct (handle N_SAMPLES N_LOOP T_SLEEP first _) as [res1 s1] eqn:Hh1.
    cbn [fst snd] in *. subst res1.
    rewrite bind_read, Hrun1, bind_run. unfold recv at 1. rewrite Hrcv1.
    fold second. rewrite bind_run, Hsecond.
    destruct (iterations_samples N_SAMPLES N_LOOP T_SLEEP HN tbl packets
                Hpackets s2 Hs2) as (s' & Hloop & Hfinal).
    pose proof (iterations_rows N_SAMPLES N_LOOP T_SLEEP HN tbl packets
                  Hpackets s2 Hs2) as Hrows'.
    rewrite Hloop in Hrows' |- *. cbn [snd] in Hrows'.
    rewrite Hprog, Hrows in Hrows'. rewrite Hprog in Hfinal.
    destruct (Z.ltb_spec (0 + Z.of_nat (List.length packets))
                (N_SAMPLES * (N_LOOP + 1))) as [Hless|_]; [subst total; lia|].
    exists s'. split; [reflexivity|].
    split; [exact Hfinal|].
    rewrite Hrows'. cbn [app]. subst total. by rewrite Z.sub_0_r. }
  subst r. rewrite main_run. cbv zeta. rewrite Hl. cbn [fst snd].
  rewrite Hrun. cbn [fst snd].
  split; [reflexivity|]. split; [by rewrite rows_closed|].
  by repeat split.
Qed.

Lemma main_session_witness :
  let tbl := [[100; 100; 100; 100]; [200; 200; 200; 200]; [300; 300; 300; 300]] in
  let r :=
    main 2 1 2
      (first_fragment :: second_fragment :: replicate 5 sample_packet_150) in
  fst r = Exited (Ok tt) /\
  rows (trace (snd r)) =
    map (packet_row tbl) (replicate 4 sample_packet_150) /\
  nloop (snd r) = 1 + 1 /\
  running (snd r) = false /\
  controlsocket (snd r) = Closed /\ receivesocket (snd r) = Closed /\
  csv_file (snd r) = false.
Proof.
  apply (main_session 2 1 2 first_fragment second_fragment xf0 x70
           (replicate 5 sample_packet_150));
    first [reflexivity | lia | cbn; lia | idtac].
  cbn [replicate].
  repeat (constructor; [apply sample_packet_150_ok|]); constructor.
Defined.

(** ** The most recent samples *)

Lemma deque_append_lastn {A} (bound : nat) (x : A) (d : list A) :
  (List.length d <= bound)%nat ->
  deque_append bound x d = lastn bound (d ++ [x]).
Proof.
  intros Hd. unfold deque_append, lastn. rewrite length_app. cbn [List.length].
  destruct (Nat.eqb_spec bound 0) as [->|Hb].
  - destruct d; [reflexivity|cbn in Hd; lia].
  - destruct (Nat.ltb_spec (List.length d) bound) as [Hlt|Hge].
    + by replace (List.length d + 1 - bound)%nat with 0%nat by lia.
    + replace (List.length d + 1 - bound)%nat with 1%nat by lia.
      destruct d; [cbn in Hge; lia|reflexivity].
Qed.

Lemma lastn_app_lastn {A} (bound : nat) (l : list A) (x : A) :
  lastn bound (lastn bound l ++ [x]) = lastn bound (l ++ [x]).
Proof.
  unfold lastn.
  set (k := (List.length l - bound)%nat).
  assert (drop k l ++ [x] = drop k (l ++ [x])) as ->.
  { rewrite drop_app_le by (subst k; lia). reflexivity. }
  rewrite drop_drop, !length_drop, !length_app. cbn [List.length].
  f_equal. subst k. lia.
Qed.

Lemma lastn_all {A} (bound : nat) (l : list A) :
  (List.length l <= bound)%nat -> lastn bound l = l.
Proof.
  intros H. unfold lastn. by replace (List.length l - bound)%nat with 0%nat by lia.
Qed.

Section Sliding.

Variables N_SAMPLES N_LOOP T_SLEEP : Z.

Lemma handle_sample_sliding
  (tbl : list (list Z)) (bound : nat) (packet : list byte) (s : Wiiboard) :
  sliding N_SAMPLES tbl bound s ->
  sample_packet tbl packet ->
  exists mass s',
    weigh tbl (slice 4 12 (take 25 packet)) = Ok mass /\
    handle N_SAMPLES N_LOOP T_SLEEP (take 25 packet) s = (Ok tt, s') /\
    sliding N_SAMPLES tbl bound s' /\
    samples s' = deque_append bound mass (samples s).
Proof.
  intros (Hrun & Hrcv & Hw & Hf & Htbl & Hmax & Hshort & Hbound)
    [H1 [mass Hmass]].
  exists mass. rewrite handle_extension by exact H1.
  rewrite bind_run, check_button_run.
  set (s1 := if _ =? BUTTON_DOWN_MASK then _ else _).
  assert (running s1 = running s /\ receivesocket s1 = receivesocket s /\
          csv_writer s1 = csv_writer s /\ csv_file s1 = csv_file s /\
          calibration s1 = calibration s /\
          maxlen s1 = maxlen s /\ samples s1 = samples s)
    as (E1 & E3 & E4 & E5 & E6 & E7 & E8).
  { subst s1. destruct (_ =? BUTTON_DOWN_MASK), (button_down s); by repeat split. }
  clearbody s1.
  rewrite bind_run, get_mass_weigh, E6, Htbl, Hmass.
  unfold writerow. rewrite E4, E5, Hw, Hf.
  unfold on_mass. rewrite !bind_read, bind_update.
  cbn [maxlen samples emit]. rewrite E7, E8, Hmax.
  unfold on_sample. rewrite bind_read. cbn [samples set_samples].
  unfold window_bounded in Hbound. rewrite Hmax in Hbound.
  pose proof (deque_append_length bound mass (samples s) Hbound) as Hlen.
  destruct (Z.eqb_spec
              (Z.of_nat (List.length (deque_append bound mass (samples s))))
              N_SAMPLES) as [Hfull|_]; [lia|].
  eexists. split; [reflexivity|]. split; [reflexivity|].
  split; [|reflexivity].
  unfold sliding, window_bounded.
  cbn [running receivesocket csv_writer csv_file calibration maxlen samples
       set_samples emit].
  rewrite E1, E3, E4, E5, E6, E7, Hmax. by repeat split.
Qed.

Lemma iterations_sliding
  (tbl : list (list Z)) (bound : nat) (inbox : list (list byte)) :
  Forall (sample_packet tbl) inbox ->
  forall s,
    sliding N_SAMPLES tbl bound s ->
    exists s',
      iterations N_SAMPLES N_LOOP T_SLEEP inbox s = (Ok tt, s') /\
      forall seen,
        samples s = lastn bound seen ->
        samples s' = lastn bound (seen ++ masses tbl inbox).
Proof.
  induction 1 as [|packet inbox Hpacket _ IH]; intros s Hs.
  - exists s. split; [reflexivity|]. intros seen Hseen. by rewrite app_nil_r.
  - destruct (handle_sample_sliding tbl bound packet s Hs Hpacket)
      as (mass & s1 & Hmass & Hstep & Hs1 & Hsamples).
    pose proof Hs as (Hrun & Hrcv & _ & _ & _ & Hmax & _ & Hbound).
    destruct (IH s1 Hs1) as (s' & Hloop & Hrest).
    exists s'. split.
    + cbn [iterations]. rewrite bind_read, Hrun, bind_run.
      unfold recv at 1. rewrite Hrcv, bind_run, Hstep. exact Hloop.
    + intros seen Hseen. unfold masses. cbn [omap list_omap]. rewrite Hmass.
      fold (masses tbl inbox).
      rewrite (Hrest (seen ++ [mass])); [by rewrite <- app_assoc|].
      unfold window_bounded in Hbound. rewrite Hmax in Hbound.
      rewrite Hsamples, deque_append_lastn by exact Hbound.
      rewrite Hseen. apply lastn_app_lastn.
Qed.

End Sliding.

(** X18. A window shorter than [N_SAMPLES] slides: after a loop over
    packets that carry samples it holds the most recent samples, as many
    as its bound allows, the oldest first. *)
Theorem window_keeps_most_recent
  (N_SAMPLES N_LOOP T_SLEEP : Z) (inbox : list (list byte)) (s : Wiiboard) :
  Z.of_nat (maxlen s) < N_SAMPLES -> window_bounded s ->
  running s = true -> receivesocket s = Connected ->
  csv_writer s = true -> csv_file s = true ->
  Forall (sample_packet (calibration s)) inbox ->
  let r := loop N_SAMPLES N_LOOP T_SLEEP inbox s in
  fst r = Ok tt /\
  samples (snd r) =
    lastn (maxlen s) (samples s ++ masses (calibration s) inbox).
Proof.
  intros Hshort Hbound Hrun Hrcv Hw Hf Hinbox r. subst r.
  unfold loop. rewrite bind_update.
  destruct (iterations_sliding N_SAMPLES N_LOOP T_SLEEP (calibration s)
              (maxlen s) inbox Hinbox (set_loop_length None s))
    as (s' & Hloop & Hsamples); [by repeat split|].
  rewrite Hloop. split; [reflexivity|]. cbn [snd].
  apply Hsamples. cbn [samples set_loop_length].
  symmetry. by apply lastn_all.
Qed.

Lemma window_keeps_most_recent_witness :
  let s := calibrated_board 1 in
  let r := loop 2 0 2 (replicate 3 sample_packet_150) s in
  fst r = Ok tt /\
  samples (snd r) =
    lastn (maxlen s)
      (samples s ++ masses (calibration s) (replicate 3 sample_packet_150)).
Proof.
  apply (window_keeps_most_recent 2 0 2 (replicate 3 sample_packet_150)
           (calibrated_board 1));
    [vm_compute; reflexivity | vm_compute; lia
    | vm_compute; reflexivity | vm_compute; reflexivity
    | vm_compute; reflexivity | vm_compute; reflexivity |].
  change (calibration (calibrated_board 1))
    with [[100; 100; 100; 100]; [200; 200; 200; 200]; [300; 300; 300; 300]].
  cbn [replicate].
  repeat (constructor; [apply sample_packet_150_ok|]); constructor.
Defined.

(** ** The properties on packets and boards *)

Lemma handle_passes_over_witness :
  handle 2 0 2 [xa1; x30; x00; x08] (new 2) = (Ok tt, new 2).
Proof.
  apply handle_passes_over. right. exists x30.
  split; [reflexivity|]. split; [discriminate|]. split; discriminate.
Defined.

Lemma status_packet_cut_short_witness :
  handle 2 0 2 [xa1; x20; x00; x00] (new 2)
    = (Raise IndexError, set_battery PyFloat.zero (new 2)).
Proof. apply status_packet_cut_short; [reflexivity|cbn; lia]. Defined.

Lemma status_packet_handled_witness :
  handle 2 0 2 (status_packet x00 x64) (calibrated_board 2) =
    (Ok tt,
     emit (Sent frame_light_on)
       (emit (Logged LogStatus)
          (emit (Sent frame_reporting)
             (set_light_state true
                (set_battery (PyFloat.div (PyFloat.of_Z 100) BATTERY_MAX)
                   (calibrated_board 2)))))).
Proof.
  apply (status_packet_handled 2 0 2 (status_packet x00 x64) x10
           (calibrated_board 2)); reflexivity.
Defined.

Lemma calibration_packet_rejected_witness :
  handle 2 0 2 [xa1; x21; x00; x00] (snd (WiiboardPrint true 2))
    = (Raise IndexError, snd (WiiboardPrint true 2)) /\
  handle 2 0 2 second_fragment (new 2) = (Raise UnboundLocalError, new 2).
Proof.
  split.
  - apply (proj1 (calibration_packet_rejected 2 0 2 [xa1; x21; x00; x00]
                    (snd (WiiboardPrint true 2)) eq_refl));
      [reflexivity|cbn; lia].
  - apply (proj2 (calibration_packet_rejected 2 0 2 second_fragment (new 2)
                    eq_refl)); reflexivity.
Defined.

Lemma calibration_assembled_witness :
  let s := snd (WiiboardPrint true 2) in
  let r := handle 2 0 2 second_fragment (snd (handle 2 0 2 first_fragment s)) in
  fst r = Ok tt /\
  calibration (snd r) =
    [[100; 100; 100; 100]; [200; 200; 200; 200]; [300; 300; 300; 300]] /\
  calibration_requested (snd r) = false /\
  trace (snd r) =
    trace s ++ [Logged LogCalibrated; Logged PrintMeasurement; Sent frame_light_on].
Proof.
  apply (calibration_assembled 2 0 2 first_fragment second_fragment xf0 x70
           (snd (WiiboardPrint true 2)));
    first [reflexivity | by apply shape_3x4_rows | cbn; lia].
Defined.

Lemma sample_packet_handled_witness :
  exists mass,
    weigh (calibration (calibrated_board 3)) (slice 4 12 sample_packet_150)
      = Ok mass /\
    handle 3 0 2 sample_packet_150 (calibrated_board 3) =
      (Ok tt,
       set_samples (samples (calibrated_board 3) ++ [mass])
         (emit (WriteRow (row_of mass))
            (snd (check_button (b2i (slice 2 4 sample_packet_150))
                    (calibrated_board 3))))).
Proof.
  eexists. split; [vm_compute; reflexivity|].
  apply sample_packet_handled;
    [reflexivity | vm_compute; reflexivity | reflexivity | reflexivity
    | vm_compute; lia | vm_compute; discriminate].
Defined.

Lemma sample_packet_fails_witness :
  handle 2 0 2 [xa1; x32; x00; x00; x27; x10; x00; x00; x00; x00; x00; x00]
    (new 2)
    = (Raise ZeroDivisionError, snd (check_button 0 (new 2))) /\
  handle 2 0 2 sample_packet_150 (set_csv_writer false (calibrated_board 2))
    = (Raise AttributeError,
       snd (check_button 8 (set_csv_writer false (calibrated_board 2)))).
Proof.
  split.
  - apply (proj1 (sample_packet_fails 2 0 2
                    [xa1; x32; x00; x00; x27; x10; x00; x00; x00; x00; x00; x00]
                    (new 2) eq_refl) ZeroDivisionError).
    vm_compute. reflexivity.
  - eapply (proj2 (sample_packet_fails 2 0 2 sample_packet_150
                     (set_csv_writer false (calibrated_board 2)) eq_refl));
      [vm_compute; reflexivity|reflexivity].
Defined.

Lemma session_rows_witness :
  let tbl := [[100; 100; 100; 100]; [200; 200; 200; 200]; [300; 300; 300; 300]] in
  rows (trace (snd (loop 2 1 2 (replicate 5 sample_packet_150)
                      (calibrated_board 2)))) =
    rows (trace (calibrated_board 2)) ++
    map (packet_row tbl) (replicate 4 sample_packet_150).
Proof.
  apply (session_rows 2 1 2 _ (replicate 5 sample_packet_150)
           (calibrated_board 2));
    [lia
    |cbn [replicate];
     repeat (constructor; [apply sample_packet_150_ok|]); constructor
    |apply calibrated_sampling].
Defined.

Lemma short_window_never_completes_witness :
  let s := calibrated_board 1 in
  let s' := snd (loop 2 0 2 (replicate 5 sample_packet_150) s) in
  nloop s' = nloop s /\ running s' = running s /\
  controlsocket s' = controlsocket s /\ receivesocket s' = receivesocket s /\
  csv_file s' = csv_file s.
Proof.
  apply (short_window_never_completes 2 0 2 (replicate 5 sample_packet_150)
           (calibrated_board 1)); [vm_compute; reflexivity|vm_compute; lia].
Defined.
